(** * Data-assembly pipeline of the unemployment dashboards

    Shallow embedding of the data-handling parts of
    [economics_dashboard.py] and [economics_dashboard_3cols.py]:
    [get_series], the state comparison table ([comparison_df]), the
    common date range and window mask, the per-year state map data
    ([state_map_data]), [load_county_data] and the start of the county
    view.

    Modelling conventions.
    - A date (a pandas Timestamp) is a [Z] of the form YYYYMMDD, so the
      chronological order is the order of [Z] and [.dt.year] is
      [d / 10000].
    - A numeric value is a [Q]; a missing value (NaN) is [None].
    - A Python exception that escapes (KeyError, ...) is [None] in an
      [option] result; [st.error] messages are returned as a list of
      strings next to the result. *)

From Stdlib Require Import List String Ascii ZArith QArith Qround Qminmax Bool Lia Lqa.
From Stdlib Require Import Sorted Permutation.
Import ListNotations.
Open Scope string_scope.
Open Scope list_scope.

(* ================================================================== *)
(** ** Region catalog *)

(** [STATE_SERIES_IDS]: state name -> FRED series id. *)
Definition STATE_SERIES_IDS : list (string * string) :=
  [("Alabama", "ALUR"); ("Alaska", "AKUR"); ("Arizona", "AZUR"); ("Arkansas", "ARUR");
   ("California", "CAUR"); ("Colorado", "COUR"); ("Connecticut", "CTUR"); ("Delaware", "DEUR");
   ("District of Columbia", "DCUR"); ("Florida", "FLUR"); ("Georgia", "GAUR"); ("Hawaii", "HIUR");
   ("Idaho", "IDUR"); ("Illinois", "ILUR"); ("Indiana", "INUR"); ("Iowa", "IAUR"); ("Kansas", "KSUR");
   ("Kentucky", "KYUR"); ("Louisiana", "LAUR"); ("Maine", "MEUR"); ("Maryland", "MDUR");
   ("Massachusetts", "MAUR"); ("Michigan", "MIUR"); ("Minnesota", "MNUR"); ("Mississippi", "MSUR");
   ("Missouri", "MOUR"); ("Montana", "MTUR"); ("Nebraska", "NEUR"); ("Nevada", "NVUR");
   ("New Hampshire", "NHUR"); ("New Jersey", "NJUR"); ("New Mexico", "NMUR"); ("New York", "NYUR");
   ("North Carolina", "NCUR"); ("North Dakota", "NDUR"); ("Ohio", "OHUR"); ("Oklahoma", "OKUR");
   ("Oregon", "ORUR"); ("Pennsylvania", "PAUR"); ("Rhode Island", "RIUR"); ("South Carolina", "SCUR");
   ("South Dakota", "SDUR"); ("Tennessee", "TNUR"); ("Texas", "TXUR"); ("Utah", "UTUR");
   ("Vermont", "VTUR"); ("Virginia", "VAUR"); ("Washington", "WAUR"); ("West Virginia", "WVUR");
   ("Wisconsin", "WIUR"); ("Wyoming", "WYUR")].

(** Dictionary lookup [d[k]] / [d.get(k)]: exact string match. *)
Fixpoint dict_get (k : string) (d : list (string * string)) : option string :=
  match d with
  | [] => None
  | (k', v) :: rest => if String.eqb k k' then Some v else dict_get k rest
  end.

(* ================================================================== *)
(** ** get_series *)

(** Outcome of [fred.get_series(series_id)]: the observations, in the
    order the API returned them, or an exception with its text. *)
Inductive fetch_outcome :=
| FetchOk (data : list (Z * option Q))
| FetchError (e : string).

(** The DataFrame returned by [get_series]: [pd.DataFrame()] (no
    columns) or a frame with columns ["Date"; "Unemployment Rate"]. *)
Inductive gresult :=
| GEmpty
| GFrame (rows : list (Z * option Q)).

Definition gcolumns (g : gresult) : list string :=
  match g with
  | GEmpty => []
  | GFrame _ => ["Date"; "Unemployment Rate"]
  end.

(** [DataFrame.empty]: no columns or no rows. *)
Definition gempty (g : gresult) : bool :=
  match g with
  | GEmpty => true
  | GFrame [] => true
  | GFrame (_ :: _) => false
  end.

(** [get_series(series_id)], returning the frame and the [st.error]
    messages it emits.  The [try] block catches every [Exception]. *)
Definition get_series (series_id : string) (resp : fetch_outcome)
  : gresult * list string :=
  match resp with
  | FetchOk data => (GFrame data, [])
  | FetchError e =>
      (GEmpty, [("Failed to fetch data for series " ++ series_id ++ ": " ++ e)%string])
  end.

(* ================================================================== *)
(** ** The comparison table *)

(** A comparison table: the "Date" column kept apart, then the value
    columns named in [tcols] ("United States" and one per merged state). *)
Record table := { tcols : list string; trows : list (Z * list (option Q)) }.

(** [pd.merge(left, right, on="Date", how="left")] where [right] has the
    columns "Date" and [name]: every left row is paired with every right
    row of the same date, in the right frame's order; a left row with no
    match gets a NaN in the new column.  Left order is kept. *)
Definition merge_left (t : table) (name : string) (right : list (Z * option Q))
  : table :=
  {| tcols := tcols t ++ [name];
     trows :=
       flat_map
         (fun r =>
            match filter (fun p => Z.eqb (fst p) (fst r)) right with
            | [] => [(fst r, snd r ++ [None])]
            | ms => map (fun p => (fst r, snd r ++ [snd p])) ms
            end)
         (trows t) |}.

(** The loop [for state in states_selected: ...] of both files; [get]
    is the (cached) [get_series] over series ids.  A state missing from
    [STATE_SERIES_IDS] raises a KeyError. *)
Fixpoint merge_states (t : table) (get : string -> gresult)
         (states : list string) : option table :=
  match states with
  | [] => Some t
  | state :: rest =>
      match dict_get state STATE_SERIES_IDS with
      | None => None
      | Some series_id =>
          let state_data := get series_id in
          if negb (gempty state_data) then
            match state_data with
            | GFrame rows => merge_states (merge_left t state rows) get rest
            | GEmpty => merge_states t get rest
            end
          else merge_states t get rest
      end
  end.

(** [us_df = get_series("UNRATE").rename(...)];
    [comparison_df = us_df[["Date", "United States"]].copy()]; then the
    merge loop.  On an empty [pd.DataFrame()] the column selection raises
    a KeyError. *)
Definition build_comparison (us : gresult) (get : string -> gresult)
           (states : list string) : option table :=
  match us with
  | GEmpty => None
  | GFrame rows =>
      merge_states {| tcols := ["United States"];
                      trows := map (fun p => (fst p, [snd p])) rows |}
                   get states
  end.

(** [mask = (Date >= start) & (Date <= end)]; [comparison_df.loc[mask]].
    In the three-column file the mask is applied only when a window was
    chosen ([if start_date and end_date]). *)
Definition in_window (start end_ d : Z) : bool :=
  Z.leb start d && Z.leb d end_.

Definition apply_window (w : option (Z * Z)) (t : table) : table :=
  match w with
  | None => t
  | Some (start, end_) =>
      {| tcols := tcols t;
         trows := filter (fun r => in_window start end_ (fst r)) (trows t) |}
  end.

(** The state lines of the chart: [comparison_df[state]] for each
    selected state (KeyError when the column is absent). *)
Fixpoint state_traces (t : table) (states : list string)
  : option (list string) :=
  match states with
  | [] => Some []
  | state :: rest =>
      if existsb (String.eqb state) (tcols t)
      then option_map (cons state) (state_traces t rest)
      else None
  end.

(* ================================================================== *)
(** ** Common date range *)

(** [(s.min(), s.max())] of a date column; a column with no dates has
    NaT bounds, which the model leaves out ([None]). *)
Definition series_bounds (ds : list Z) : option (Z * Z) :=
  match ds with
  | [] => None
  | d :: rest => Some (fold_left Z.min rest d, fold_left Z.max rest d)
  end.

Fixpoint map_option {A B} (f : A -> option B) (l : list A) : option (list B) :=
  match l with
  | [] => Some []
  | x :: rest =>
      match f x, map_option f rest with
      | Some y, Some ys => Some (y :: ys)
      | _, _ => None
      end
  end.

(** [common_start = max(s.min() for s in all_dates)],
    [common_end = min(s.max() for s in all_dates)]; [max] and [min] of
    an empty generator raise, and NaT bounds are left out. *)
Definition common_range (all_dates : list (list Z)) : option (Z * Z) :=
  match map_option series_bounds all_dates with
  | Some ((lo, hi) :: bs) =>
      Some (fold_left Z.max (map fst bs) lo, fold_left Z.min (map snd bs) hi)
  | _ => None
  end.

(** [df["Date"]] of a [get_series] result; KeyError on [pd.DataFrame()]. *)
Definition date_column (g : gresult) : option (list Z) :=
  match g with
  | GEmpty => None
  | GFrame rows => Some (map fst rows)
  end.

(** economics_dashboard.py, lines 69-71:
    [all_dates = [us_df["Date"]] + [get_series(STATE_SERIES_IDS[s])["Date"]
    for s in states_selected]].  [None]: an exception (or NaT bounds). *)
Definition common_range_v1 (us : gresult) (get : string -> gresult)
           (states : list string) : option (Z * Z) :=
  match date_column us,
        map_option (fun s => match dict_get s STATE_SERIES_IDS with
                             | Some sid => date_column (get sid)
                             | None => None
                             end) states with
  | Some u, Some ss => common_range (u :: ss)
  | _, _ => None
  end.

(** economics_dashboard_3cols.py, lines 118-123: the dates of the
    selected state series whose frame is not empty; the national series
    is not consulted.  Outer [None]: a KeyError; [Some None]: no state
    series, so [common_start, common_end = None, None]. *)
Definition common_range_v3 (get : string -> gresult) (states : list string)
  : option (option (Z * Z)) :=
  match map_option (fun s => dict_get s STATE_SERIES_IDS) states with
  | None => None
  | Some sids =>
      let all_state_dates :=
        flat_map (fun sid => let g := get sid in
                             if negb (gempty g)
                             then match date_column g with
                                  | Some ds => [ds] | None => [] end
                             else []) sids in
      match all_state_dates with
      | [] => Some None
      | _ => Some (common_range all_state_dates)
      end
  end.

(** [d] lies within the date range of the fetched series [g]. *)
Definition in_series_range (d : Z) (g : gresult) : Prop :=
  exists ds lo hi, date_column g = Some ds /\ series_bounds ds = Some (lo, hi)
                   /\ (lo <= d <= hi)%Z.

(* ================================================================== *)
(** ** State map data for one year (economics_dashboard_3cols.py) *)

(** [Timestamp.year] of a YYYYMMDD date. *)
Definition year_of (d : Z) : Z := d / 10000.

(** Python's [round(x, 2)]: round half to even at two decimals. *)
Definition round_half_even (x : Q) : Z :=
  let f := Qfloor x in
  let r := x - inject_Z f in
  if Qlt_le_dec r (1 # 2) then f
  else if Qlt_le_dec (1 # 2) r then (f + 1)%Z
  else if Z.even f then f else (f + 1)%Z.

Definition round2 (x : Q) : Q := inject_Z (round_half_even (x * 100)) / 100.

(** [Series.mean()] with [skipna]: the sum of the non-null values over
    their count. *)
Definition mean (vals : list Q) : Q :=
  fold_left Qplus vals 0 / inject_Z (Z.of_nat (List.length vals)).

Fixpoint index_of (c : string) (cs : list string) : option nat :=
  match cs with
  | [] => None
  | c' :: rest =>
      if String.eqb c c' then Some 0%nat else option_map S (index_of c rest)
  end.

Fixpoint cat_options {A} (l : list (option A)) : list A :=
  match l with
  | [] => []
  | Some x :: rest => x :: cat_options rest
  | None :: rest => cat_options rest
  end.

(** [df_year = comparison_df[comparison_df["Date"].dt.year == y]]. *)
Definition rows_of_year (t : table) (y : Z) : list (Z * list (option Q)) :=
  filter (fun r => Z.eqb (year_of (fst r)) y) (trows t).

(** [df_year[state].dropna()]: the non-null values of a column of
    [df_year] (no column: no values). *)
Definition year_obs (t : table) (y : Z) (state : string) : list Q :=
  match index_of state (tcols t) with
  | None => []
  | Some i => cat_options (map (fun r => nth i (snd r) None) (rows_of_year t y))
  end.

(** Lines 212-219: one entry [{"State": state, "Rate": round(avg, 2)}]
    per selected state whose column exists and has a non-null value in
    the selected year. *)
Fixpoint state_map_data (t : table) (y : Z) (states : list string)
  : list (string * Q) :=
  match states with
  | [] => []
  | state :: rest =>
      match index_of state (tcols t) with
      | Some _ =>
          match year_obs t y state with
          | [] => state_map_data t y rest
          | vals => (state, round2 (mean vals)) :: state_map_data t y rest
          end
      | None => state_map_data t y rest
      end
  end.

Definition list_min (l : list Q) : Q :=
  match l with [] => 0 | x :: rest => fold_left Qmin rest x end.
Definition list_max (l : list Q) : Q :=
  match l with [] => 0 | x :: rest => fold_left Qmax rest x end.

(* ================================================================== *)
(** ** Strings: Python's [str.strip()] on ASCII text *)

(** [str.isspace] on an ASCII character: \t \n \v \f \r, the separators
    \x1c-\x1f and the space. *)
Definition is_space (c : ascii) : bool :=
  let n := nat_of_ascii c in
  (Nat.leb 9 n && Nat.leb n 13) || (Nat.leb 28 n && Nat.leb n 32).

Fixpoint lstrip (s : string) : string :=
  match s with
  | EmptyString => EmptyString
  | String c rest => if is_space c then lstrip rest else s
  end.

Fixpoint rstrip (s : string) : string :=
  match s with
  | EmptyString => EmptyString
  | String c rest =>
      let r := rstrip rest in
      if is_space c && String.eqb r EmptyString then EmptyString else String c r
  end.

Definition strip (s : string) : string := rstrip (lstrip s).

(* ================================================================== *)
(** ** The county data frame *)

(** A cell of the CSV frame. *)
Inductive cell :=
| CNull
| CStr (s : string)
| CNum (q : Q)
| CDate (d : Z).

Definition is_null (c : cell) : bool :=
  match c with CNull => true | _ => false end.

(** A DataFrame: column labels and rows; a short row reads as NaN past
    its end. *)
Record frame := { fcols : list string; frows : list (list cell) }.

Definition empty_frame : frame := {| fcols := []; frows := [] |}.

(** [DataFrame.empty]: no columns or no rows. *)
Definition is_empty (f : frame) : bool :=
  match fcols f, frows f with
  | [], _ => true
  | _, [] => true
  | _, _ => false
  end.

(** [row[c]]: the cell of column [c] (first column of that label). *)
Definition cell_at (f : frame) (c : string) (r : list cell) : cell :=
  match index_of c (fcols f) with
  | Some i => nth i r CNull
  | None => CNull
  end.

(** A row padded with NaN to [n] cells. *)
Definition pad (n : nat) (r : list cell) : list cell :=
  firstn n (r ++ repeat CNull n).

Fixpoint replace_nth (i : nat) (x : cell) (r : list cell) : list cell :=
  match i, r with
  | O, _ :: rest => x :: rest
  | S j, y :: rest => y :: replace_nth j x rest
  | _, [] => []
  end.

(** [df[c] = <per-row value g(row)>]: overwrite column [c] if it exists,
    append it otherwise.  [set_col_row] is the new row built from [r]. *)
Definition set_col_row (f : frame) (c : string) (g : list cell -> cell)
           (r : list cell) : list cell :=
  let n := List.length (fcols f) in
  match index_of c (fcols f) with
  | Some i => replace_nth i (g r) (pad n r)
  | None => pad n r ++ [g r]
  end.

Definition set_col (f : frame) (c : string) (g : list cell -> cell) : frame :=
  {| fcols := match index_of c (fcols f) with
              | Some _ => fcols f
              | None => fcols f ++ [c]
              end;
     frows := map (set_col_row f c g) (frows f) |}.

(** [df.dropna(subset=[c])]. *)
Definition dropna_col (f : frame) (c : string) : frame :=
  {| fcols := fcols f;
     frows := filter (fun r => negb (is_null (cell_at f c r))) (frows f) |}.

(** [c in df.columns]. *)
Definition has_col (f : frame) (c : string) : bool :=
  existsb (String.eqb c) (fcols f).

(** [LA_PARISH_FIPS]: parish name -> county FIPS code. *)
Definition LA_PARISH_FIPS : list (string * string) :=
  [("Acadia", "22001"); ("Allen", "22003"); ("Ascension", "22005"); ("Assumption", "22007");
   ("Avoyelles", "22009"); ("Beauregard", "22011"); ("Bienville", "22013"); ("Bossier", "22015");
   ("Caddo", "22017"); ("Calcasieu", "22019"); ("Caldwell", "22021"); ("Cameron", "22023");
   ("Catahoula", "22025"); ("Claiborne", "22027"); ("Concordia", "22029"); ("De Soto", "22031");
   ("East Baton Rouge", "22033"); ("East Carroll", "22035"); ("East Feliciana", "22037");
   ("Evangeline", "22039"); ("Franklin", "22041"); ("Grant", "22043"); ("Iberia", "22045");
   ("Iberville", "22047"); ("Jackson", "22049"); ("Jefferson", "22051"); ("Jefferson Davis", "22053");
   ("Lafayette", "22055"); ("Lafourche", "22057"); ("LaSalle", "22059"); ("Lincoln", "22061");
   ("Livingston", "22063"); ("Madison", "22065"); ("Morehouse", "22067"); ("Natchitoches", "22069");
   ("Orleans", "22071"); ("Ouachita", "22073"); ("Plaquemines", "22075"); ("Pointe Coupee", "22077");
   ("Rapides", "22079"); ("Red River", "22081"); ("Richland", "22083"); ("Sabine", "22085");
   ("St. Bernard", "22087"); ("St. Charles", "22089"); ("St. Helena", "22091"); ("St. James", "22093");
   ("St. John the Baptist", "22095"); ("St. Landry", "22097"); ("St. Martin", "22099");
   ("St. Mary", "22101"); ("St. Tammany", "22103"); ("Tangipahoa", "22105"); ("Tensas", "22107");
   ("Terrebonne", "22109"); ("Union", "22111"); ("Vermilion", "22113"); ("Vernon", "22115");
   ("Washington", "22117"); ("Webster", "22119"); ("West Baton Rouge", "22121");
   ("West Carroll", "22123"); ("West Feliciana", "22125"); ("Winn", "22127")].

(** Outcome of [pd.read_csv("merged_national_county_1990_2025.csv")]. *)
Inductive csv_outcome :=
| CsvOk (f : frame)
| CsvError (e : string).

Section Loader.

(** [pd.to_datetime(.., errors='coerce')] and
    [pd.to_numeric(.., errors='coerce')] on one cell: [None] is NaT/NaN. *)
Variable to_datetime : cell -> option Z.
Variable to_numeric : cell -> option Q.

Definition opt_date (o : option Z) : cell :=
  match o with Some d => CDate d | None => CNull end.
Definition opt_num (o : option Q) : cell :=
  match o with Some q => CNum q | None => CNull end.

(** [df["Parish"].str.strip()] on a column that holds a string (object
    dtype): strings are stripped, other cells give NaN.  On a column with
    rows but no string (numeric or all-NaN dtype) the [.str] accessor
    raises an AttributeError instead: see [parish_strip_raises]. *)
Definition strip_cell (c : cell) : cell :=
  match c with CStr s => CStr (strip s) | _ => CNull end.

(** [df["Parish"].map(LA_PARISH_FIPS)]. *)
Definition fips_cell (c : cell) : cell :=
  match c with
  | CStr s => match dict_get s LA_PARISH_FIPS with
              | Some code => CStr code
              | None => CNull
              end
  | _ => CNull
  end.

(** Step 5: the FIPS column and the drop of unmapped rows. *)
Definition map_fips (df : frame) : frame :=
  let df := set_col df "fips" (fun r => fips_cell (cell_at df "Parish" r)) in
  dropna_col df "fips".

(** [df.columns = df.columns.str.strip()]. *)
Definition strip_columns (f : frame) : frame :=
  {| fcols := map strip (fcols f); frows := frows f |}.

(** [df.rename(columns={"Unemployment rate": "Unemployment Rate"})]. *)
Definition rename_rate (f : frame) : frame :=
  {| fcols := map (fun c => if String.eqb c "Unemployment rate"
                            then "Unemployment Rate" else c) (fcols f);
     frows := frows f |}.

(** [load_county_data()] (identical in both files), returning the frame
    and the [st.error] messages.  On an input where [parish_strip_raises]
    holds, the code raises at [df["Parish"].str.strip()] (line 214 /
    291) and returns nothing: the value computed here for such an input
    is not the code's. *)
Definition load_county_data (csv : csv_outcome) : frame * list string :=
  match csv with
  | CsvError e => (empty_frame, [("Failed to load county data: " ++ e)%string])
  | CsvOk raw =>
      let df := strip_columns raw in
      if negb (has_col df "Parish") then
        (empty_frame, ["The county data must contain a 'Parish' column."])
      else
        let df := set_col df "Parish" (fun r => strip_cell (cell_at df "Parish" r)) in
        let df := rename_rate df in
        if has_col df "Date" then
          let df := set_col df "Date" (fun r => opt_date (to_datetime (cell_at df "Date" r))) in
          if forallb (fun r => is_null (cell_at df "Date" r)) (frows df) then
            (empty_frame, ["The 'Date' column exists but none of the dates could be parsed."])
          else
            let df := set_col df "year"
                        (fun r => match cell_at df "Date" r with
                                  | CDate d => CNum (inject_Z (year_of d))
                                  | _ => CNull
                                  end) in
            (map_fips df, [])
        else if has_col df "year" then
          let df := set_col df "year" (fun r => opt_num (to_numeric (cell_at df "year" r))) in
          (map_fips df, [])
        else
          (empty_frame, ["The county data must contain either a 'Date' or 'year' column."])
  end.

End Loader.


(* ================================================================== *)
(** ** Start of the county view (economics_dashboard_3cols.py) *)

(** How far the county section gets: the [st.error] branch for an empty
    frame, an uncaught exception, or the date inputs with the bounds
    [county_common_start]/[county_common_end] ([None]: NaT bounds). *)
Inductive county_outcome :=
| CountyLoadError
| CountyCrash
| CountyDates (bounds : option (Z * Z)).

Definition county_default_parishes : list string :=
  ["St. Tammany"; "Tangipahoa"; "Livingston"; "Washington"; "St. Helena"].

Definition date_of_cell (c : cell) : option Z :=
  match c with CDate d => Some d | _ => None end.

(** Lines 337-366: on a non-empty frame, the parish multiselect (whose
    defaults must be among its options, or Streamlit raises) and then
    [county_df["Date"].min()] / [.max()] (KeyError without a "Date"
    column; NaT skipped). *)
Definition county_view_start (county_df : frame) : county_outcome :=
  if is_empty county_df then CountyLoadError
  else if negb (has_col county_df "Parish") then CountyCrash
  else
    let parishes := map (cell_at county_df "Parish") (frows county_df) in
    if negb (forallb (fun p => existsb (fun c => match c with
                                                  | CStr s => String.eqb p s
                                                  | _ => false end) parishes)
                     county_default_parishes)
    then CountyCrash
    else if negb (has_col county_df "Date") then CountyCrash
    else CountyDates (series_bounds (cat_options
                        (map (fun r => date_of_cell (cell_at county_df "Date" r))
                             (frows county_df)))).

(* ================================================================== *)
(** ** "Select All States" (economics_dashboard_3cols.py) *)

(** Line 104: [states = list(STATE_SERIES_IDS.keys())]. *)
Definition states : list string := map fst STATE_SERIES_IDS.

(** Line 105: the options of the state multiselect. *)
Definition state_options : list string := "Select All States" :: states.

(** Lines 112-115. *)
Definition states_selected_of (selected_state_options : list string) : list string :=
  if existsb (String.eqb "Select All States") selected_state_options then states
  else selected_state_options.

(* ================================================================== *)
(** ** Latest values and the state map (economics_dashboard.py) *)

(** Line 127: [comparison_df["Date"].max()]; NaT ([None]) on an empty
    table. *)
Definition latest_date (t : table) : option Z :=
  match trows t with
  | [] => None
  | r :: rest => Some (fold_left Z.max (map fst rest) (fst r))
  end.

(** Lines 129-137: for each selected state,
    [comparison_df.loc[Date == latest_date, state].values[0]] rounded
    with [round(.., 2)] (NaN stays NaN).  The KeyError of a missing
    column and the IndexError of an empty selection (NaT equals no date)
    are swallowed by the bare [except], which skips the state. *)
Fixpoint latest_values (t : table) (states_selected : list string)
  : list (string * option Q) :=
  match states_selected with
  | [] => []
  | state :: rest =>
      match index_of state (tcols t) with
      | None => latest_values t rest
      | Some i =>
          match latest_date t with
          | None => latest_values t rest
          | Some ld =>
              match filter (fun r => Z.eqb (fst r) ld) (trows t) with
              | [] => latest_values t rest
              | r :: _ =>
                  (state, option_map round2 (nth i (snd r) None))
                    :: latest_values t rest
              end
          end
      end
  end.

(** [state_abbr]: state name -> USPS code. *)
Definition state_abbr : list (string * string) :=
  [("Alabama", "AL"); ("Alaska", "AK"); ("Arizona", "AZ"); ("Arkansas", "AR"); ("California", "CA");
   ("Colorado", "CO"); ("Connecticut", "CT"); ("Delaware", "DE"); ("District of Columbia", "DC");
   ("Florida", "FL"); ("Georgia", "GA"); ("Hawaii", "HI"); ("Idaho", "ID"); ("Illinois", "IL");
   ("Indiana", "IN"); ("Iowa", "IA"); ("Kansas", "KS"); ("Kentucky", "KY"); ("Louisiana", "LA");
   ("Maine", "ME"); ("Maryland", "MD"); ("Massachusetts", "MA"); ("Michigan", "MI"); ("Minnesota", "MN");
   ("Mississippi", "MS"); ("Missouri", "MO"); ("Montana", "MT"); ("Nebraska", "NE"); ("Nevada", "NV");
   ("New Hampshire", "NH"); ("New Jersey", "NJ"); ("New Mexico", "NM"); ("New York", "NY");
   ("North Carolina", "NC"); ("North Dakota", "ND"); ("Ohio", "OH"); ("Oklahoma", "OK"); ("Oregon", "OR");
   ("Pennsylvania", "PA"); ("Rhode Island", "RI"); ("South Carolina", "SC"); ("South Dakota", "SD");
   ("Tennessee", "TN"); ("Texas", "TX"); ("Utah", "UT"); ("Vermont", "VT"); ("Virginia", "VA");
   ("Washington", "WA"); ("West Virginia", "WV"); ("Wisconsin", "WI"); ("Wyoming", "WY")].

(** Lines 140-156: [map_df = pd.DataFrame(latest_values)] and
    [map_df["State Code"] = map_df["State"].map(state_abbr)]: rows
    (State, Rate, State Code).  A frame built from an empty list has no
    "State" column, and the lookup raises a KeyError ([None]). *)
Definition map_rows (latest : list (string * option Q))
  : option (list (string * option Q * option string)) :=
  match latest with
  | [] => None
  | _ => Some (map (fun e => (fst e, snd e, dict_get (fst e) state_abbr)) latest)
  end.

(* ================================================================== *)
(** ** Parish filters of the county view *)

(** [Series.unique()]: the values in order of first occurrence. *)
Fixpoint unique (l : list string) : list string :=
  match l with
  | [] => []
  | x :: rest => x :: filter (fun y => negb (String.eqb x y)) (unique rest)
  end.

(** [sorted] on strings (code-point order), as an insertion sort. *)
Fixpoint insert_sorted (x : string) (l : list string) : list string :=
  match l with
  | [] => [x]
  | y :: rest => if String.leb x y then x :: l else y :: insert_sorted x rest
  end.

Fixpoint sorted (l : list string) : list string :=
  match l with
  | [] => []
  | x :: rest => insert_sorted x (sorted rest)
  end.

(** economics_dashboard_3cols.py, line 351:
    [parishes = sorted(county_df["Parish"].unique())]: [None] for the
    KeyError on a frame without a "Parish" column (such as the
    [pd.DataFrame()] of a failed load); for a "Parish" column of strings,
    which is what [load_county_data] leaves, the sorted distinct names; a
    non-string value is outside the model ([None]). *)
Definition parish_names (county_df : frame) : option (list string) :=
  if negb (has_col county_df "Parish") then None
  else option_map (fun names => sorted (unique names))
    (map_option (fun r => match cell_at county_df "Parish" r with
                          | CStr s => Some s
                          | _ => None
                          end) (frows county_df)).

(** [county_df["Parish"].isin(selected)]: False on NaN. *)
Definition parish_isin (c : cell) (selected : list string) : bool :=
  match c with CStr s => existsb (String.eqb s) selected | _ => false end.

(** [county_df["year"] == y]: False on NaN. *)
Definition year_is (c : cell) (y : Z) : bool :=
  match c with CNum q => Qeq_bool q (inject_Z y) | _ => false end.

(** economics_dashboard.py, line 325:
    [county_df[county_df["year"] == selected_year_county]]; KeyError
    without a "year" column. *)
Definition filtered_county_df (county_df : frame) (y : Z) : option frame :=
  if negb (has_col county_df "year") then None
  else Some {| fcols := fcols county_df;
               frows := filter (fun r => year_is (cell_at county_df "year" r) y)
                               (frows county_df) |}.

(** economics_dashboard_3cols.py, lines 427-430. *)
Definition filtered_map_df (county_df : frame) (y : Z) (selected_parishes : list string)
  : option frame :=
  if negb (has_col county_df "year" && has_col county_df "Parish") then None
  else Some {| fcols := fcols county_df;
               frows := filter (fun r => year_is (cell_at county_df "year" r) y
                                         && parish_isin (cell_at county_df "Parish" r)
                                                        selected_parishes)
                               (frows county_df) |}.

(* ================================================================== *)
(** ** The parish GeoJSON (economics_dashboard_3cols.py) *)

(** Lines 437-439:
    [[f for f in geojson["features"] if f["id"].startswith("22")]].  A
    feature is its "id" ([None] when absent: KeyError) and the rest of
    the feature, kept unchanged. *)
Fixpoint la_features {A : Type} (features : list (option string * A))
  : option (list (option string * A)) :=
  match features with
  | [] => Some []
  | f :: rest =>
      match fst f with
      | None => None
      | Some id =>
          option_map (fun kept => if String.prefix "22" id then f :: kept else kept)
                     (la_features rest)
      end
  end.

(* ================================================================== *)
(** ** Auxiliary predicates and sample inputs *)

(** Witness of C1: the spec's scenario (national 2020-01 and 2020-02,
    Louisiana 2020-01 only) with the window of all of 2020. *)
Definition scenario_us : list (Z * option Q) :=
  [(20200101%Z, Some (5 # 1)); (20200201%Z, Some (52 # 10))].

Definition scenario_get (sid : string) : gresult :=
  if String.eqb sid "LAUR" then GFrame [(20200101%Z, Some (4 # 1))] else GEmpty.

(** A selected state whose [get_series] frame is not empty. *)
Definition has_data (get : string -> gresult) (s : string) : bool :=
  match dict_get s STATE_SERIES_IDS with
  | Some sid => negb (gempty (get sid))
  | None => false
  end.

(** The Louisiana column of a table with three 2020 rows 1, 2, 2, whose
    mean is 5/3. *)
Definition map_table : table :=
  {| tcols := ["United States"; "Louisiana"];
     trows := [(20200101%Z, [Some (3 # 1); Some (1 # 1)]);
               (20200201%Z, [Some (3 # 1); Some (2 # 1)]);
               (20200301%Z, [Some (3 # 1); Some (2 # 1)])] |}.

(** One 2020 observation 1.666 for Louisiana. *)
Definition single_obs_table : table :=
  {| tcols := ["United States"; "Louisiana"];
     trows := [(20200101%Z, [Some (3 # 1); Some (1666 # 1000)])] |}.

(** [d] lies within the range of the date column [ds]. *)
Definition in_dates_range (d : Z) (ds : list Z) : Prop :=
  exists lo hi, series_bounds ds = Some (lo, hi) /\ (lo <= d <= hi)%Z.

(** The national series ends in January 2024, Louisiana's in January
    2025. *)
Definition range_us : list (Z * option Q) :=
  [(20200101%Z, Some (5 # 1)); (20240101%Z, Some (4 # 1))].

Definition range_get (sid : string) : gresult :=
  if String.eqb sid "LAUR"
  then GFrame [(20200101%Z, Some (4 # 1)); (20250101%Z, Some (3 # 1))]
  else GEmpty.

Definition renamed (c : string) : string :=
  if String.eqb c "Unemployment rate" then "Unemployment Rate" else c.



(** A two-column file whose date parser knows only "2020-01-01". *)
Definition toy_to_datetime (c : cell) : option Z :=
  match c with
  | CStr s => if String.eqb s "2020-01-01" then Some 20200101%Z else None
  | _ => None
  end.

Definition toy_to_numeric (c : cell) : option Q :=
  match c with CNum q => Some q | _ => None end.


(** A "year"-only file with the five default parishes: the loader
    returns a non-empty frame and the county view raises. *)
Definition year_only_file : frame :=
  {| fcols := ["Parish"; "year"; "Unemployment rate"];
     frows := [[CStr "St. Tammany"; CNum 2020; CNum 4];
               [CStr "Tangipahoa"; CNum 2020; CNum 5];
               [CStr "Livingston"; CNum 2020; CNum 4];
               [CStr "Washington"; CNum 2020; CNum 6];
               [CStr "St. Helena"; CNum 2020; CNum 7]] |}.

(** The same file with a "Date" column reaches the date inputs. *)
Definition date_file : frame :=
  {| fcols := ["Parish"; "Date"];
     frows := [[CStr "St. Tammany"; CStr "2020-01-01"];
               [CStr "Tangipahoa"; CStr "2020-01-01"];
               [CStr "Livingston"; CStr "2020-01-01"];
               [CStr "Washington"; CStr "2020-01-01"];
               [CStr "St. Helena"; CStr "2020-01-01"]] |}.

(** Sample national series for the extra properties. *)
Definition sample_us_rows : list (Z * option Q) :=
  [(20200101%Z, Some (5 # 1)); (20200201%Z, Some (52 # 10))].

(** A comparison table whose latest date, 2020-02-01, has a NaN for
    Texas. *)
Definition latest_table : table :=
  {| tcols := ["United States"; "Louisiana"; "Texas"];
     trows := [(20200101%Z, [Some (5 # 1); Some (4 # 1); Some (3 # 1)]);
               (20200201%Z, [Some (52 # 10); Some (41 # 10); None])] |}.

(** A county file with the five default parishes, one unparsable date
    and one unknown parish. *)
Definition sample_county_file : frame :=
  {| fcols := ["Parish"; "Date"; "Unemployment rate"];
     frows := [[CStr "St. Tammany "; CStr "2020-01-01"; CNum 4];
               [CStr "Tangipahoa"; CStr "2021-06-01"; CNum 5];
               [CStr "Livingston"; CStr "n/a"; CNum 4];
               [CStr " Washington"; CStr "2020-01-01"; CNum 6];
               [CStr "St. Helena"; CStr "2021-06-01"; CNum 7];
               [CStr "Nowhere"; CStr "2020-01-01"; CNum 8]] |}.

Definition sample_to_datetime (c : cell) : option Z :=
  match c with
  | CStr s => if String.eqb s "2020-01-01" then Some 20200101%Z
              else if String.eqb s "2021-06-01" then Some 20210601%Z
              else None
  | _ => None
  end.

Definition sample_to_numeric (c : cell) : option Q :=
  match c with CNum q => Some q | _ => None end.

(** Three GeoJSON features, one of them in Mississippi. *)
Definition sample_features : list (option string * Z) :=
  [(Some "22001", 1%Z); (Some "28001", 2%Z); (Some "22103", 3%Z)].

(* ================================================================== *)
(** * Properties *)

(* ------------------------------------------------------------------ *)
(** ** The left-join keeps the national dates *)

Lemma filter_date_absent (d : Z) (s : list (Z * option Q)) :
  ~ In d (map fst s) -> filter (fun p => Z.eqb (fst p) d) s = [].
Proof.
  induction s as [|[d' v] s IH]; simpl; intros Hn; [reflexivity|].
  destruct (Z.eqb_spec d' d) as [->|Hne]; [exfalso; tauto|].
  apply IH. tauto.
Qed.

Lemma filter_date_at_most_one (d : Z) (s : list (Z * option Q)) :
  NoDup (map fst s) -> (List.length (filter (fun p => Z.eqb (fst p) d) s) <= 1)%nat.
Proof.
  induction s as [|[d' v] s IH]; simpl; intros Hnd; [lia|].
  inversion Hnd as [|? ? Hnotin Hnd']; subst.
  destruct (Z.eqb_spec d' d) as [->|Hne]; simpl.
  - rewrite filter_date_absent by exact Hnotin. simpl. lia.
  - apply IH, Hnd'.
Qed.

Lemma merge_left_cols (t : table) (name : string) (right : list (Z * option Q)) :
  tcols (merge_left t name right) = tcols t ++ [name].
Proof. reflexivity. Qed.

Lemma merge_left_dates (t : table) (name : string) (right : list (Z * option Q)) :
  NoDup (map fst right) ->
  map fst (trows (merge_left t name right)) = map fst (trows t).
Proof.
  intros Hnd. unfold merge_left; simpl.
  induction (trows t) as [|r rows IH]; simpl; [reflexivity|].
  rewrite map_app, IH.
  pose proof (filter_date_at_most_one (fst r) right Hnd) as Hle.
  destruct (filter (fun p => Z.eqb (fst p) (fst r)) right) as [|p [|p' ms]];
    simpl in *; [reflexivity|reflexivity|lia].
Qed.

Lemma map_fst_filter {A B} (g : A -> bool) (l : list (A * B)) :
  map fst (filter (fun r => g (fst r)) l) = filter g (map fst l).
Proof.
  induction l as [|x l IH]; simpl; [reflexivity|].
  destruct (g (fst x)); simpl; rewrite IH; reflexivity.
Qed.

Lemma merge_states_dates (get : string -> gresult) (states : list string) :
  Forall (fun s => dict_get s STATE_SERIES_IDS <> None) states ->
  (forall sid rows, get sid = GFrame rows -> NoDup (map fst rows)) ->
  forall t, exists t', merge_states t get states = Some t'
                       /\ map fst (trows t') = map fst (trows t).
Proof.
  intros Hkeys Hnd. induction Hkeys as [|s rest Hs _ IH]; intros t;
    cbn [merge_states].
  - exists t. split; reflexivity.
  - destruct (dict_get s STATE_SERIES_IDS) as [sid|]; [|congruence].
    destruct (get sid) as [|rows] eqn:Hg; cbn [gempty negb].
    + apply IH.
    + destruct rows as [|p rows']; cbn [gempty negb]; [apply IH|].
      destruct (IH (merge_left t s (p :: rows'))) as [t' [H1 H2]].
      exists t'. split; [exact H1|].
      rewrite H2. apply merge_left_dates. apply (Hnd sid). exact Hg.
Qed.

(** C1. Left-join backbone: when every selected state is a key of
    [STATE_SERIES_IDS] and every fetched series has distinct dates (the
    ObservationSeries invariant), the comparison table is built, and
    after the window mask its date column is the national (UNRATE)
    date column restricted to the window [start, end_], in order: the
    left-joins neither remove nor add a date row. *)
Theorem comparison_dates_backbone (us_rows : list (Z * option Q))
  (get : string -> gresult) (states : list string) (start end_ : Z)
  (Hkeys : Forall (fun s => dict_get s STATE_SERIES_IDS <> None) states)
  (Hdistinct : forall sid rows, get sid = GFrame rows -> NoDup (map fst rows)) :
  exists t, build_comparison (GFrame us_rows) get states = Some t
            /\ map fst (trows (apply_window (Some (start, end_)) t))
               = filter (in_window start end_) (map fst us_rows).
Proof.
  unfold build_comparison.
  destruct (merge_states_dates get states Hkeys Hdistinct
              {| tcols := ["United States"];
                 trows := map (fun p => (fst p, [snd p])) us_rows |}) as [t [Ht Hd]].
  exists t. split; [exact Ht|].
  simpl. rewrite (map_fst_filter (in_window start end_)), Hd. simpl.
  rewrite map_map. reflexivity.
Qed.

Lemma comparison_dates_backbone_witness :
  exists t, build_comparison (GFrame scenario_us) scenario_get ["Louisiana"; "Texas"] = Some t
            /\ map fst (trows (apply_window (Some (20200101%Z, 20201231%Z)) t))
               = filter (in_window 20200101 20201231) (map fst scenario_us).
Proof.
  apply comparison_dates_backbone.
  - repeat constructor; vm_compute; discriminate.
  - intros sid rows. unfold scenario_get.
    destruct (String.eqb sid "LAUR"); intros H; inversion H; subst.
    repeat constructor; simpl; tauto.
Defined.

(* ------------------------------------------------------------------ *)
(** ** Columns of the comparison table *)

Lemma merge_states_cols (get : string -> gresult) (states : list string) :
  Forall (fun s => dict_get s STATE_SERIES_IDS <> None) states ->
  forall t, exists t', merge_states t get states = Some t'
                       /\ tcols t' = tcols t ++ filter (has_data get) states.
Proof.
  intros Hkeys. induction Hkeys as [|s rest Hs _ IH]; intros t;
    cbn [merge_states filter].
  - exists t. rewrite app_nil_r. split; reflexivity.
  - unfold has_data at 1.
    destruct (dict_get s STATE_SERIES_IDS) as [sid|]; [|congruence].
    destruct (get sid) as [|rows] eqn:Hg; cbn [gempty negb].
    + apply IH.
    + destruct rows as [|p rows']; cbn [gempty negb]; [apply IH|].
      destruct (IH (merge_left t s (p :: rows'))) as [t' [H1 H2]].
      exists t'. split; [exact H1|].
      rewrite H2, merge_left_cols, <- app_assoc. reflexivity.
Qed.

(** C2 (amended). A selected state whose [get_series] frame is empty
    (a failed fetch returns [pd.DataFrame()]) is skipped by the merge
    loop: the comparison table has no column for it.  Its columns are
    "United States" followed by exactly the selected states with a
    non-empty frame, in selection order; a failed fetch is reported by
    [get_series] through one [st.error] message. *)
Theorem comparison_columns (us_rows : list (Z * option Q))
  (get : string -> gresult) (states : list string)
  (Hkeys : Forall (fun s => dict_get s STATE_SERIES_IDS <> None) states) :
  (exists t, build_comparison (GFrame us_rows) get states = Some t
             /\ tcols t = "United States" :: filter (has_data get) states)
  /\ (forall sid e, fst (get_series sid (FetchError e)) = GEmpty
                    /\ List.length (snd (get_series sid (FetchError e))) = 1%nat).
Proof.
  split.
  - unfold build_comparison.
    destruct (merge_states_cols get states Hkeys
                {| tcols := ["United States"];
                   trows := map (fun p => (fst p, [snd p])) us_rows |}) as [t [Ht Hc]].
    exists t. split; [exact Ht | exact Hc].
  - intros sid e. split; reflexivity.
Qed.

Lemma comparison_columns_witness :
  ((exists t, build_comparison (GFrame scenario_us) scenario_get ["Louisiana"; "Texas"] = Some t
              /\ tcols t = "United States" :: filter (has_data scenario_get) ["Louisiana"; "Texas"])
   /\ (forall sid e, fst (get_series sid (FetchError e)) = GEmpty
                     /\ List.length (snd (get_series sid (FetchError e))) = 1%nat)).
Proof.
  apply comparison_columns. repeat constructor; vm_compute; discriminate.
Defined.

(** Counterexample to C2 as stated: Texas's fetch fails ([get_series]
    returns [pd.DataFrame()]); the table built for Louisiana and Texas
    has no Texas column at all (and the chart's [comparison_df["Texas"]]
    then raises). *)
Lemma comparison_failed_state_no_column :
  fst (get_series "TXUR" (FetchError "timeout")) = scenario_get "TXUR"
  /\ exists t, build_comparison (GFrame scenario_us) scenario_get ["Louisiana"; "Texas"] = Some t
               /\ ~ In "Texas" (tcols t)
               /\ state_traces t ["Louisiana"; "Texas"] = None.
Proof.
  split; [reflexivity|].
  eexists. split; [vm_compute; reflexivity|].
  split; [simpl; intuition discriminate | vm_compute; reflexivity].
Qed.

(* ------------------------------------------------------------------ *)
(** ** get_series *)

(** C6 (amended). [get_series] never raises.  On success it returns
    the upstream observations unchanged, in the order the API returned
    them, as a two-column (Date, Unemployment Rate) frame, and reports
    nothing; on failure it returns [pd.DataFrame()], a frame with no
    columns at all, and reports one [st.error] message naming the series
    and the error. *)
Theorem get_series_shape (series_id : string) (resp : fetch_outcome) :
  match resp with
  | FetchOk data =>
      get_series series_id resp = (GFrame data, [])
      /\ gcolumns (GFrame data) = ["Date"; "Unemployment Rate"]
  | FetchError e =>
      get_series series_id resp
        = (GEmpty, [("Failed to fetch data for series " ++ series_id ++ ": " ++ e)%string])
      /\ gcolumns GEmpty = []
  end.
Proof. destruct resp; split; reflexivity. Qed.

(** Counterexample to C6 as stated: a failed fetch gives a frame with
    no columns, not a (date, value) table. *)
Lemma get_series_failure_no_columns :
  gcolumns (fst (get_series "UNRATE" (FetchError "HTTP Error 400"))) = []
  /\ List.length (gcolumns (fst (get_series "UNRATE" (FetchError "HTTP Error 400")))) <> 2%nat.
Proof. split; [reflexivity | simpl; discriminate]. Qed.

(* ------------------------------------------------------------------ *)
(** ** State map data for one year *)

Lemma year_obs_no_column (t : table) (y : Z) (s : string) :
  index_of s (tcols t) = None -> year_obs t y s = [].
Proof. unfold year_obs. intros ->. reflexivity. Qed.

Lemma state_map_data_cons (t : table) (y : Z) (s : string) (rest : list string) :
  state_map_data t y (s :: rest)
  = match year_obs t y s with
    | [] => state_map_data t y rest
    | vals => (s, round2 (mean vals)) :: state_map_data t y rest
    end.
Proof.
  simpl. destruct (index_of s (tcols t)) eqn:Hi; [reflexivity|].
  rewrite (year_obs_no_column t y s Hi). reflexivity.
Qed.

Lemma state_map_data_In (t : table) (y : Z) (states : list string) (s : string) (v : Q) :
  In (s, v) (state_map_data t y states)
  <-> In s states /\ year_obs t y s <> [] /\ v = round2 (mean (year_obs t y s)).
Proof.
  induction states as [|s' rest IH].
  - simpl. tauto.
  - rewrite state_map_data_cons.
    destruct (year_obs t y s') as [|q qs] eqn:Hy.
    + rewrite IH. split.
      * intros (H1 & H2 & H3). split; [right; exact H1 | split; assumption].
      * intros ([<-|H1] & H2 & H3); [congruence|].
        split; [exact H1 | split; assumption].
    + simpl. rewrite IH. split.
      * intros [Heq | (H1 & H2 & H3)].
        -- inversion Heq; subst. rewrite Hy.
           split; [left; reflexivity | split; [discriminate | reflexivity]].
        -- split; [right; exact H1 | split; assumption].
      * intros ([<-|H1] & H2 & H3).
        -- left. rewrite Hy in H3. subst. reflexivity.
        -- right. split; [exact H1 | split; assumption].
Qed.

(** C3 (amended). For every comparison table [t], year [y] and selection
    [states], the state map data contains an entry [(s, v)] exactly when
    [s] is selected and its column has at least one non-null value among
    the rows of year [y]; [v] is then the mean of those values rounded to
    two decimals ([round(avg_rate, 2)]), not the mean itself.  States
    with no observation in [y] are left out. *)
Theorem state_map_data_spec (t : table) (y : Z) (states : list string) :
  forall s v,
    In (s, v) (state_map_data t y states)
    <-> In s states /\ year_obs t y s <> []
        /\ v = round2 (mean (year_obs t y s)).
Proof. intros s v. apply state_map_data_In. Qed.

(** Counterexample to C3 as stated: the entry for Louisiana is 1.67, not
    the mean 5/3 of its 2020 values. *)
Lemma state_map_data_rounds :
  state_map_data map_table 2020 ["Louisiana"] = [("Louisiana", 167 # 100)]
  /\ mean (year_obs map_table 2020 "Louisiana") == 5 # 3
  /\ ~ (167 # 100 == 5 # 3).
Proof.
  split; [vm_compute; reflexivity|].
  split; [vm_compute; reflexivity|].
  vm_compute. discriminate.
Qed.

(* ------------------------------------------------------------------ *)
(** ** Bounds of the rounded mean *)

Lemma round_half_even_bound (x : Q) :
  x - (1 # 2) <= inject_Z (round_half_even x) <= x + (1 # 2).
Proof.
  unfold round_half_even.
  pose proof (Qfloor_le x) as Hlo. pose proof (Qlt_floor x) as Hhi.
  rewrite inject_Z_plus in Hhi. change (inject_Z 1) with (1 # 1) in Hhi.
  destruct (Qlt_le_dec (x - inject_Z (Qfloor x)) (1 # 2)) as [H1|H1].
  - lra.
  - destruct (Qlt_le_dec (1 # 2) (x - inject_Z (Qfloor x))) as [H2|H2].
    + rewrite inject_Z_plus. change (inject_Z 1) with (1 # 1). lra.
    + destruct (Z.even (Qfloor x)); [lra|].
      rewrite inject_Z_plus. change (inject_Z 1) with (1 # 1). lra.
Qed.

Lemma round2_bound (x : Q) : x - (1 # 200) <= round2 x <= x + (1 # 200).
Proof.
  unfold round2, Qdiv.
  pose proof (round_half_even_bound (x * 100)) as H.
  change (/ 100) with (1 # 100).
  lra.
Qed.

Lemma fold_plus_sum (l : list Q) (a : Q) :
  fold_left Qplus l a == a + fold_right Qplus 0 l.
Proof.
  revert a. induction l as [|x l IH]; intros a; simpl.
  - lra.
  - rewrite IH. lra.
Qed.

Lemma inject_length_succ {A} (x : A) (l : list A) :
  inject_Z (Z.of_nat (List.length (x :: l))) == inject_Z (Z.of_nat (List.length l)) + 1.
Proof.
  simpl List.length. rewrite Nat2Z.inj_succ, <- Z.add_1_r, inject_Z_plus. reflexivity.
Qed.

Lemma sum_lower (lo : Q) (l : list Q) :
  Forall (fun x => lo <= x) l ->
  inject_Z (Z.of_nat (List.length l)) * lo <= fold_right Qplus 0 l.
Proof.
  induction 1 as [|x l Hx _ IH].
  - simpl List.length. simpl fold_right.
    change (inject_Z (Z.of_nat 0)) with (0 # 1). lra.
  - rewrite inject_length_succ. simpl fold_right.
    rewrite Qmult_plus_distr_l. lra.
Qed.

Lemma sum_upper (hi : Q) (l : list Q) :
  Forall (fun x => x <= hi) l ->
  fold_right Qplus 0 l <= inject_Z (Z.of_nat (List.length l)) * hi.
Proof.
  induction 1 as [|x l Hx _ IH].
  - simpl List.length. simpl fold_right.
    change (inject_Z (Z.of_nat 0)) with (0 # 1). lra.
  - rewrite inject_length_succ. simpl fold_right.
    rewrite Qmult_plus_distr_l. lra.
Qed.

Lemma length_pos {A} (l : list A) :
  l <> [] -> 0 < inject_Z (Z.of_nat (List.length l)).
Proof.
  intros Hne. change 0 with (inject_Z 0). rewrite <- Zlt_Qlt.
  destruct l; [congruence|]. simpl. lia.
Qed.

Lemma mean_bounds (lo hi : Q) (l : list Q) :
  l <> [] -> Forall (fun x => lo <= x <= hi) l -> lo <= mean l <= hi.
Proof.
  intros Hne Hb. pose proof (length_pos l Hne) as Hpos.
  unfold mean. rewrite fold_plus_sum.
  split.
  - apply Qle_shift_div_l; [exact Hpos|].
    pose proof (sum_lower lo l) as H.
    assert (Forall (fun x => lo <= x) l) as Hl
      by (eapply Forall_impl; [|exact Hb]; simpl; tauto).
    specialize (H Hl). rewrite Qmult_comm. lra.
  - apply Qle_shift_div_r; [exact Hpos|].
    pose proof (sum_upper hi l) as H.
    assert (Forall (fun x => x <= hi) l) as Hl
      by (eapply Forall_impl; [|exact Hb]; simpl; tauto).
    specialize (H Hl). rewrite Qmult_comm. lra.
Qed.

Lemma fold_min_bounds (l : list Q) (a : Q) :
  fold_left Qmin l a <= a /\ Forall (fun x => fold_left Qmin l a <= x) l.
Proof.
  revert a. induction l as [|b l IH]; intros a; simpl.
  - split; [apply Qle_refl | constructor].
  - destruct (IH (Qmin a b)) as [H1 H2]. split.
    + eapply Qle_trans; [exact H1 | apply Q.le_min_l].
    + constructor; [|exact H2].
      eapply Qle_trans; [exact H1 | apply Q.le_min_r].
Qed.

Lemma fold_max_bounds (l : list Q) (a : Q) :
  a <= fold_left Qmax l a /\ Forall (fun x => x <= fold_left Qmax l a) l.
Proof.
  revert a. induction l as [|b l IH]; intros a; simpl.
  - split; [apply Qle_refl | constructor].
  - destruct (IH (Qmax a b)) as [H1 H2]. split.
    + eapply Qle_trans; [apply Q.le_max_l | exact H1].
    + constructor; [|exact H2].
      eapply Qle_trans; [apply Q.le_max_r | exact H1].
Qed.

Lemma list_min_max_bounds (l : list Q) :
  Forall (fun x => list_min l <= x <= list_max l) l.
Proof.
  destruct l as [|a l]; [constructor|]. unfold list_min, list_max.
  destruct (fold_min_bounds l a) as [Hm1 Hm2].
  destruct (fold_max_bounds l a) as [HM1 HM2].
  constructor; [split; assumption|].
  rewrite Forall_forall in *. intros x Hx. split; [apply Hm2 | apply HM2]; exact Hx.
Qed.

(** C4 (amended). Every entry of the state map data names a selected
    state, and its value (the mean rounded to two decimals) lies within
    half a cent of the range of that state's non-null observations in
    the year: between their minimum minus 0.005 and their maximum plus
    0.005.  The rounding can take it outside [min, max] itself. *)
Theorem state_map_data_bounds (t : table) (y : Z) (states : list string) :
  Forall (fun p => In (fst p) states
                   /\ list_min (year_obs t y (fst p)) - (1 # 200) <= snd p
                   /\ snd p <= list_max (year_obs t y (fst p)) + (1 # 200))
         (state_map_data t y states).
Proof.
  rewrite Forall_forall. intros [s v] Hin. simpl.
  apply state_map_data_In in Hin as (Hs & Hne & ->).
  split; [exact Hs|].
  pose proof (mean_bounds _ _ _ Hne (list_min_max_bounds (year_obs t y s))) as Hm.
  pose proof (round2_bound (mean (year_obs t y s))) as Hr.
  lra.
Qed.

(** Counterexample to C4 as stated: the only observation is 1.666, so
    minimum and maximum are 1.666, but the map value is 1.67. *)
Lemma state_map_data_above_max :
  state_map_data single_obs_table 2020 ["Louisiana"] = [("Louisiana", 167 # 100)]
  /\ list_max (year_obs single_obs_table 2020 "Louisiana") == 1666 # 1000
  /\ ~ (167 # 100 <= list_max (year_obs single_obs_table 2020 "Louisiana")).
Proof.
  split; [vm_compute; reflexivity|].
  split; [vm_compute; reflexivity|].
  vm_compute. intros H. apply H. reflexivity.
Qed.

(* ------------------------------------------------------------------ *)
(** ** The common date range is the intersection of the ranges *)

Lemma fold_max_le (l : list Z) (a d : Z) :
  (fold_left Z.max l a <= d)%Z <-> (a <= d)%Z /\ Forall (fun x => x <= d)%Z l.
Proof.
  revert a. induction l as [|x l IH]; intros a; simpl.
  - split; [intros H; split; [exact H | constructor] | tauto].
  - rewrite IH, Forall_cons_iff, Z.max_lub_iff. tauto.
Qed.

Lemma fold_min_ge (l : list Z) (b d : Z) :
  (d <= fold_left Z.min l b)%Z <-> (d <= b)%Z /\ Forall (fun x => d <= x)%Z l.
Proof.
  revert b. induction l as [|x l IH]; intros b; simpl.
  - split; [intros H; split; [exact H | constructor] | tauto].
  - rewrite IH, Forall_cons_iff, Z.min_glb_iff. tauto.
Qed.

Lemma map_option_Forall2 {A B} (f : A -> option B) (l : list A) (l' : list B) :
  map_option f l = Some l' -> Forall2 (fun x y => f x = Some y) l l'.
Proof.
  revert l'. induction l as [|x l IH]; intros l' H; simpl in H.
  - inversion H. constructor.
  - destruct (f x) eqn:Hx; [|discriminate].
    destruct (map_option f l) eqn:Hl; [|discriminate].
    inversion H; subst. constructor; [exact Hx | apply IH; reflexivity].
Qed.

Lemma Forall2_Forall_iff {A B} (R : A -> B -> Prop) (P : A -> Prop) (Q : B -> Prop)
      (l : list A) (l' : list B) :
  Forall2 R l l' -> (forall x y, R x y -> (P x <-> Q y)) ->
  (Forall P l <-> Forall Q l').
Proof.
  intros H HPQ. induction H as [|x y l l' Hxy _ IH]; [split; constructor|].
  rewrite !Forall_cons_iff, IH, (HPQ x y Hxy). reflexivity.
Qed.

Lemma Forall_flat_map_iff {A B} (P : B -> Prop) (f : A -> list B) (l : list A) :
  Forall P (flat_map f l) <-> Forall (fun x => Forall P (f x)) l.
Proof.
  induction l as [|x l IH]; simpl; [split; constructor|].
  rewrite Forall_app, Forall_cons_iff, IH. reflexivity.
Qed.

Lemma common_range_iff (dss : list (list Z)) (cs ce : Z) :
  common_range dss = Some (cs, ce) ->
  forall d, (cs <= d <= ce)%Z <-> Forall (in_dates_range d) dss.
Proof.
  unfold common_range. intros H d.
  destruct (map_option series_bounds dss) as [bs|] eqn:Hb; [|discriminate].
  destruct bs as [|[lo hi] bs]; [discriminate|]. inversion H; subst; clear H.
  apply map_option_Forall2 in Hb.
  transitivity (Forall (fun b => fst b <= d <= snd b)%Z ((lo, hi) :: bs)).
  - rewrite Forall_cons_iff. simpl.
    assert (forall l : list (Z * Z),
              Forall (fun x => x <= d)%Z (map fst l) /\ Forall (fun x => d <= x)%Z (map snd l)
              <-> Forall (fun b => fst b <= d <= snd b)%Z l) as Hsplit.
    { induction l as [|b l IHl]; simpl; [split; [constructor | split; constructor]|].
      rewrite !Forall_cons_iff, <- IHl. tauto. }
    rewrite fold_max_le, fold_min_ge, <- Hsplit. tauto.
  - symmetry. apply (Forall2_Forall_iff _ _ _ _ _ Hb).
    intros ds [lo' hi'] Hds. unfold in_dates_range. rewrite Hds. simpl.
    split; [intros (lo'' & hi'' & Heq & Hr); inversion Heq; subst; exact Hr|].
    intros Hr. exists lo', hi'. split; [reflexivity | exact Hr].
Qed.

Lemma in_series_range_dates (d : Z) (g : gresult) (ds : list Z) :
  date_column g = Some ds -> (in_series_range d g <-> in_dates_range d ds).
Proof.
  intros Hg. unfold in_series_range, in_dates_range. rewrite Hg. split.
  - intros (ds' & lo & hi & Heq & Hb & Hr). inversion Heq; subst. eauto.
  - intros (lo & hi & Hb & Hr). exists ds, lo, hi. auto.
Qed.

Lemma common_range_v1_iff (us : gresult) (get : string -> gresult)
      (states : list string) (cs ce : Z) :
  common_range_v1 us get states = Some (cs, ce) ->
  forall d, (cs <= d <= ce)%Z
            <-> in_series_range d us
                /\ Forall (fun s => exists sid, dict_get s STATE_SERIES_IDS = Some sid
                                                /\ in_series_range d (get sid)) states.
Proof.
  unfold common_range_v1. intros H d.
  destruct (date_column us) as [u|] eqn:Hu; [|discriminate].
  destruct (map_option _ states) as [ss|] eqn:Hss; [|discriminate].
  rewrite (common_range_iff _ _ _ H d), Forall_cons_iff, (in_series_range_dates d us u Hu).
  apply map_option_Forall2 in Hss.
  rewrite (Forall2_Forall_iff _ _ (in_dates_range d) _ _ Hss); [reflexivity|].
  intros s ds Hs. destruct (dict_get s STATE_SERIES_IDS) as [sid|] eqn:Hk; [|discriminate].
  split.
  - intros (sid' & Heq & Hr). inversion Heq; subst.
    apply (in_series_range_dates d (get sid') ds Hs). exact Hr.
  - intros Hr. exists sid. split; [reflexivity|].
    apply (in_series_range_dates d (get sid) ds Hs). exact Hr.
Qed.

Lemma state_dates_iff (d : Z) (g : gresult) :
  Forall (in_dates_range d)
         (if negb (gempty g)
          then match date_column g with Some ds => [ds] | None => [] end
          else [])
  <-> (gempty g = false -> in_series_range d g).
Proof.
  destruct g as [|rows]; simpl.
  - split; [intros _ H; discriminate | intros _; constructor].
  - destruct rows as [|p rows]; simpl.
    + split; [intros _ H; discriminate | intros _; constructor].
    + rewrite Forall_cons_iff.
      rewrite (in_series_range_dates d (GFrame (p :: rows)) (map fst (p :: rows)) eq_refl).
      split; [intros [H _] _; exact H | intros H; split; [apply H; reflexivity | constructor]].
Qed.

Lemma common_range_v3_iff (get : string -> gresult) (states : list string) (cs ce : Z) :
  common_range_v3 get states = Some (Some (cs, ce)) ->
  forall d, (cs <= d <= ce)%Z
            <-> Forall (fun s => exists sid, dict_get s STATE_SERIES_IDS = Some sid
                                             /\ (gempty (get sid) = false
                                                 -> in_series_range d (get sid))) states.
Proof.
  unfold common_range_v3. intros H d.
  destruct (map_option _ states) as [sids|] eqn:Hs; [|discriminate].
  match type of H with
  | (match ?l with [] => _ | _ => _ end) = _ =>
      assert (Some (common_range l) = Some (Some (cs, ce))) as H'
        by (destruct l; [discriminate | exact H])
  end.
  inversion H' as [Hc]; clear H H'.
  rewrite (common_range_iff _ _ _ Hc d), Forall_flat_map_iff.
  apply map_option_Forall2 in Hs. symmetry.
  apply (Forall2_Forall_iff _ _ _ _ _ Hs).
  intros s sid Hk. rewrite state_dates_iff. split.
  - intros (sid' & Heq & Hr). rewrite Hk in Heq. inversion Heq; subst. exact Hr.
  - intros Hr. exists sid. split; [exact Hk | exact Hr].
Qed.

Lemma common_range_v3_none (get : string -> gresult) (states : list string) :
  Forall (fun s => exists sid, dict_get s STATE_SERIES_IDS = Some sid
                               /\ gempty (get sid) = true) states ->
  common_range_v3 get states = Some None.
Proof.
  intros Hall.
  assert (exists sids, map_option (fun s => dict_get s STATE_SERIES_IDS) states = Some sids
                       /\ Forall (fun sid => gempty (get sid) = true) sids) as (sids & Hs & He).
  { induction Hall as [|s rest (sid & Hk & Hg) _ IH]; [exists []; split; constructor|].
    destruct IH as (sids & Hs & He). exists (sid :: sids). cbn [map_option].
    rewrite Hk, Hs. split; [reflexivity | constructor; assumption]. }
  unfold common_range_v3. rewrite Hs.
  assert (forall l : list string, Forall (fun sid => gempty (get sid) = true) l ->
            flat_map (fun sid => if negb (gempty (get sid))
                                 then match date_column (get sid) with
                                      | Some ds => [ds] | None => [] end
                                 else []) l = []) as Hnil.
  { induction 1 as [|sid l Hg _ IHl]; [reflexivity|]. simpl. rewrite Hg. exact IHl. }
  rewrite (Hnil sids He). reflexivity.
Qed.

Lemma apply_window_In (start end_ : Z) (t : table) (r : Z * list (option Q)) :
  In r (trows (apply_window (Some (start, end_)) t))
  <-> In r (trows t) /\ (start <= fst r <= end_)%Z.
Proof.
  simpl. rewrite filter_In. unfold in_window.
  rewrite andb_true_iff, !Z.leb_le. reflexivity.
Qed.

(** C5 (amended).  The bounds offered to the date inputs are an
    intersection of date ranges, and the mask keeps the rows with
    [start <= Date <= end], both ends included:
    - economics_dashboard.py: [[common_start, common_end]] is the
      intersection of the ranges of the national series and of every
      selected state series;
    - economics_dashboard_3cols.py: it is the intersection of the ranges
      of the selected state series whose frame is not empty only, the
      national series excluded; when no selected state has data there is
      no window and the table is not filtered. *)
Theorem date_window_bounds :
  (forall us get states cs ce,
     common_range_v1 us get states = Some (cs, ce) ->
     forall d, (cs <= d <= ce)%Z
               <-> in_series_range d us
                   /\ Forall (fun s => exists sid, dict_get s STATE_SERIES_IDS = Some sid
                                                   /\ in_series_range d (get sid)) states)
  /\ (forall get states cs ce,
        common_range_v3 get states = Some (Some (cs, ce)) ->
        forall d, (cs <= d <= ce)%Z
                  <-> Forall (fun s => exists sid, dict_get s STATE_SERIES_IDS = Some sid
                                                   /\ (gempty (get sid) = false
                                                       -> in_series_range d (get sid))) states)
  /\ (forall get states t,
        Forall (fun s => exists sid, dict_get s STATE_SERIES_IDS = Some sid
                                     /\ gempty (get sid) = true) states ->
        common_range_v3 get states = Some None /\ apply_window None t = t)
  /\ (forall start end_ t r,
        In r (trows (apply_window (Some (start, end_)) t))
        <-> In r (trows t) /\ (start <= fst r <= end_)%Z).
Proof.
  split; [exact common_range_v1_iff|].
  split; [exact common_range_v3_iff|].
  split; [intros get states t H; split; [exact (common_range_v3_none get states H) | reflexivity]|].
  exact apply_window_In.
Qed.

(** Counterexample to C5 as stated: in economics_dashboard_3cols.py the
    offered window for Louisiana ends on 2025-01-01, outside the national
    series' range, while the intersection that includes the national
    series (economics_dashboard.py) ends on 2024-01-01. *)
Lemma window_ignores_national :
  common_range_v3 range_get ["Louisiana"] = Some (Some (20200101%Z, 20250101%Z))
  /\ common_range_v1 (GFrame range_us) range_get ["Louisiana"] = Some (20200101%Z, 20240101%Z)
  /\ ~ in_series_range 20250101 (GFrame range_us).
Proof.
  split; [vm_compute; reflexivity|].
  split; [vm_compute; reflexivity|].
  intros (ds & lo & hi & Hd & Hb & Hr).
  simpl in Hd. inversion Hd; subst. simpl in Hb. inversion Hb; subst. lia.
Qed.

(* ------------------------------------------------------------------ *)
(** ** Column operations on frames *)

Lemma index_of_nth_error (c : string) (cs : list string) (i : nat) :
  index_of c cs = Some i -> nth_error cs i = Some c.
Proof.
  revert i. induction cs as [|c' cs IH]; intros i H; simpl in H; [discriminate|].
  destruct (String.eqb_spec c c') as [->|Hne].
  - inversion H. reflexivity.
  - destruct (index_of c cs) as [j|] eqn:Hj; simpl in H; [|discriminate].
    inversion H; subst. simpl. apply IH. reflexivity.
Qed.

Lemma index_of_lt (c : string) (cs : list string) (i : nat) :
  index_of c cs = Some i -> (i < List.length cs)%nat.
Proof.
  intros H. apply index_of_nth_error in H. apply nth_error_Some. congruence.
Qed.

Lemma index_of_app_other (c c' : string) (cs : list string) :
  c' <> c -> index_of c' (cs ++ [c]) = index_of c' cs.
Proof.
  intros Hne. induction cs as [|x cs IH]; simpl.
  - destruct (String.eqb_spec c' c); [congruence | reflexivity].
  - rewrite IH. reflexivity.
Qed.

Lemma index_of_app_new (c : string) (cs : list string) :
  index_of c cs = None -> index_of c (cs ++ [c]) = Some (List.length cs).
Proof.
  induction cs as [|x cs IH]; simpl; intros H.
  - rewrite String.eqb_refl. reflexivity.
  - destruct (String.eqb c x); [discriminate|].
    destruct (index_of c cs); [discriminate|]. rewrite IH by reflexivity. reflexivity.
Qed.

Lemma index_of_has_col (c : string) (cs : list string) :
  index_of c cs = None <-> existsb (String.eqb c) cs = false.
Proof.
  induction cs as [|x cs IH]; simpl; [tauto|].
  destruct (String.eqb c x); simpl; [split; discriminate|].
  rewrite <- IH. destruct (index_of c cs); simpl; split; congruence.
Qed.

Lemma pad_length (n : nat) (r : list cell) : List.length (pad n r) = n.
Proof.
  unfold pad. rewrite length_firstn, length_app, repeat_length. lia.
Qed.

Lemma nth_pad (j n : nat) (r : list cell) :
  (j < n)%nat -> nth j (pad n r) CNull = nth j r CNull.
Proof.
  intros Hj. unfold pad. rewrite nth_firstn.
  destruct (Nat.ltb_spec j n) as [_|]; [|lia]. simpl.
  destruct (Nat.lt_ge_cases j (List.length r)) as [Hr|Hr].
  - apply app_nth1. exact Hr.
  - rewrite app_nth2 by exact Hr. rewrite (nth_overflow r) by exact Hr.
    destruct (Nat.lt_ge_cases (j - List.length r) n).
    + apply nth_repeat.
    + apply nth_overflow. rewrite repeat_length. exact H.
Qed.

Lemma nth_replace_other (i j : nat) (x : cell) (r : list cell) :
  i <> j -> nth j (replace_nth i x r) CNull = nth j r CNull.
Proof.
  revert i j. induction r as [|y r IH]; intros i j Hne; destruct i, j; simpl;
    try reflexivity; try lia.
  apply IH. lia.
Qed.

Lemma nth_replace_same (i : nat) (x : cell) (r : list cell) :
  (i < List.length r)%nat -> nth i (replace_nth i x r) CNull = x.
Proof.
  revert i. induction r as [|y r IH]; intros i Hi; destruct i; simpl in *;
    try reflexivity; try lia.
  apply IH. lia.
Qed.

Lemma cell_at_set_col_same (f : frame) (c : string) (g : list cell -> cell)
      (r : list cell) :
  cell_at (set_col f c g) c (set_col_row f c g r) = g r.
Proof.
  unfold cell_at, set_col, set_col_row; simpl.
  destruct (index_of c (fcols f)) as [i|] eqn:Hi.
  - rewrite Hi. apply nth_replace_same. rewrite pad_length.
    apply (index_of_lt c). exact Hi.
  - rewrite index_of_app_new by exact Hi.
    rewrite app_nth2; rewrite pad_length; [|lia].
    rewrite Nat.sub_diag. reflexivity.
Qed.

Lemma cell_at_set_col_other (f : frame) (c c' : string) (g : list cell -> cell)
      (r : list cell) :
  c' <> c -> cell_at (set_col f c g) c' (set_col_row f c g r) = cell_at f c' r.
Proof.
  intros Hne. unfold cell_at, set_col, set_col_row; simpl.
  destruct (index_of c (fcols f)) as [i|] eqn:Hi.
  - destruct (index_of c' (fcols f)) as [j|] eqn:Hj; [|reflexivity].
    assert (i <> j) as Hij.
    { intros <-. apply index_of_nth_error in Hi, Hj. congruence. }
    rewrite nth_replace_other by exact Hij.
    apply nth_pad. apply (index_of_lt c'). exact Hj.
  - rewrite index_of_app_other by exact Hne.
    destruct (index_of c' (fcols f)) as [j|] eqn:Hj; [|reflexivity].
    pose proof (index_of_lt c' _ _ Hj) as Hlt.
    rewrite app_nth1 by (rewrite pad_length; exact Hlt).
    apply nth_pad. exact Hlt.
Qed.

Lemma has_col_set_col (f : frame) (c c' : string) (g : list cell -> cell) :
  has_col (set_col f c g) c' = has_col f c' || String.eqb c' c.
Proof.
  unfold has_col, set_col; simpl.
  destruct (index_of c (fcols f)) as [i|] eqn:Hi.
  - destruct (String.eqb_spec c' c) as [->|Hne]; [|rewrite orb_false_r; reflexivity].
    rewrite orb_true_r. apply existsb_exists. exists c. split; [|apply String.eqb_refl].
    apply index_of_nth_error in Hi. eapply nth_error_In. exact Hi.
  - rewrite existsb_app. simpl. rewrite orb_false_r. reflexivity.
Qed.

Lemma index_of_rename (c : string) (cs : list string) :
  c <> "Unemployment Rate" -> c <> "Unemployment rate" ->
  index_of c (map renamed cs) = index_of c cs.
Proof.
  intros H1 H2. induction cs as [|x cs IH]; simpl; [reflexivity|].
  rewrite IH. unfold renamed.
  destruct (String.eqb_spec x "Unemployment rate") as [->|Hx].
  - destruct (String.eqb_spec c "Unemployment Rate"); [congruence|].
    destruct (String.eqb_spec c "Unemployment rate"); [congruence|]. reflexivity.
  - reflexivity.
Qed.


Lemma has_col_rename (f : frame) (c : string) :
  c <> "Unemployment Rate" -> c <> "Unemployment rate" ->
  has_col (rename_rate f) c = has_col f c.
Proof.
  intros H1 H2. unfold has_col, rename_rate; simpl. fold renamed.
  destruct (existsb (String.eqb c) (fcols f)) eqn:He.
  - apply existsb_exists in He as (x & Hin & Hx). apply String.eqb_eq in Hx. subst x.
    apply existsb_exists. exists c. split; [|apply String.eqb_refl].
    assert (renamed c = c) as Hrc by (unfold renamed;
      destruct (String.eqb_spec c "Unemployment rate"); [congruence | reflexivity]).
    pose proof (in_map renamed _ _ Hin) as Hm. rewrite Hrc in Hm. exact Hm.
  - apply index_of_has_col. rewrite index_of_rename by assumption.
    apply index_of_has_col. exact He.
Qed.

Lemma dropna_col_nonnull (f : frame) (c : string) :
  Forall (fun r => cell_at (dropna_col f c) c r <> CNull) (frows (dropna_col f c)).
Proof.
  apply Forall_forall. intros r Hr. simpl in Hr. apply filter_In in Hr as [_ Hr].
  unfold cell_at in *; simpl in *.
  destruct (index_of c (fcols f)); [|discriminate].
  destruct (nth n r CNull); simpl in Hr; discriminate.
Qed.


Lemma length_filter_map_ext {A B} (p : B -> bool) (q : A -> bool) (h : A -> B)
      (l : list A) :
  (forall x, p (h x) = q x) ->
  List.length (filter p (map h l)) = List.length (filter q l).
Proof.
  intros H. induction l as [|x l IH]; simpl; [reflexivity|].
  rewrite H. destruct (q x); simpl; rewrite IH; reflexivity.
Qed.

(* ------------------------------------------------------------------ *)
(** ** The FIPS step *)

Lemma map_fips_rows (df : frame) :
  Forall (fun r => exists s code,
              cell_at (map_fips df) "Parish" r = CStr s
              /\ dict_get s LA_PARISH_FIPS = Some code
              /\ cell_at (map_fips df) "fips" r = CStr code)
         (frows (map_fips df)).
Proof.
  apply Forall_forall. intros r Hr.
  unfold map_fips, dropna_col in *. cbn [frows fcols] in *.
  apply filter_In in Hr as [Hr Hnn]. apply in_map_iff in Hr as (r0 & <- & _).
  change (cell_at {| fcols := fcols (set_col df "fips" (fun r => fips_cell (cell_at df "Parish" r)));
                     frows := _ |})
    with (cell_at (set_col df "fips" (fun r => fips_cell (cell_at df "Parish" r)))).
  rewrite cell_at_set_col_same in *.
  rewrite cell_at_set_col_other by discriminate.
  destruct (cell_at df "Parish" r0) as [|s| |]; cbn [fips_cell is_null negb] in Hnn;
    try discriminate.
  destruct (dict_get s LA_PARISH_FIPS) as [code|] eqn:Hs;
    cbn [is_null negb] in Hnn; [|discriminate].
  exists s, code. cbn [fips_cell]. rewrite Hs. auto.
Qed.

Lemma map_fips_length (df : frame) :
  List.length (frows (map_fips df))
  = List.length (filter (fun r => negb (is_null (fips_cell (cell_at df "Parish" r))))
                        (frows df)).
Proof.
  unfold map_fips, dropna_col. cbn [frows fcols].
  change (cell_at {| fcols := fcols (set_col df "fips" (fun r => fips_cell (cell_at df "Parish" r)));
                     frows := _ |})
    with (cell_at (set_col df "fips" (fun r => fips_cell (cell_at df "Parish" r)))).
  apply length_filter_map_ext. intros r. cbv beta. rewrite cell_at_set_col_same.
  reflexivity.
Qed.





Lemma has_col_map_fips (df : frame) (c : string) :
  has_col (map_fips df) c = has_col df c || String.eqb c "fips".
Proof.
  exact (has_col_set_col df "fips" c (fun r => fips_cell (cell_at df "Parish" r))).
Qed.

Lemma load_county_data_cases (to_dt : cell -> option Z) (to_num : cell -> option Q)
      (csv : csv_outcome) :
  fst (load_county_data to_dt to_num csv) = empty_frame
  \/ exists df, fst (load_county_data to_dt to_num csv) = map_fips df.
Proof.
  unfold load_county_data. destruct csv as [raw|e]; [|left; reflexivity].
  cbv zeta.
  repeat match goal with
         | |- context [if ?b then _ else _] => destruct b
         end; cbn [fst]; eauto.
Qed.

(** C8. Every row of the dataset returned by [load_county_data] has a
    non-null FIPS code, for every input file and every date and number
    parser: the error paths return an empty frame, and the other paths
    end with [dropna(subset=["fips"])]. *)
Theorem county_rows_have_fips (to_dt : cell -> option Z) (to_num : cell -> option Q)
        (csv : csv_outcome) :
  Forall (fun r => cell_at (fst (load_county_data to_dt to_num csv)) "fips" r <> CNull)
         (frows (fst (load_county_data to_dt to_num csv))).
Proof.
  destruct (load_county_data_cases to_dt to_num csv) as [-> | (df & ->)];
    [constructor|].
  eapply Forall_impl; [|apply map_fips_rows].
  intros r (s & code & _ & _ & ->). discriminate.
Qed.

(** C9 (amended).  Normalization only strips whitespace: "St.Tammany "
    becomes "St.Tammany", which has no entry in [LA_PARISH_FIPS], so
    such a row gets no FIPS code and is dropped; a whitespace variant
    such as "St. Tammany " does resolve to 22103.  Every row the loader
    keeps has a parish name that is a key of [LA_PARISH_FIPS] and the
    FIPS code of that key. *)
Theorem st_tammany_lookup :
  strip "St.Tammany " = "St.Tammany"
  /\ dict_get (strip "St.Tammany ") LA_PARISH_FIPS = None
  /\ dict_get (strip "St. Tammany ") LA_PARISH_FIPS = Some "22103"
  /\ dict_get "St. Tammany" LA_PARISH_FIPS = Some "22103"
  /\ (forall to_dt to_num csv,
        Forall (fun r => exists s code,
                    cell_at (fst (load_county_data to_dt to_num csv)) "Parish" r = CStr s
                    /\ dict_get s LA_PARISH_FIPS = Some code
                    /\ cell_at (fst (load_county_data to_dt to_num csv)) "fips" r = CStr code)
               (frows (fst (load_county_data to_dt to_num csv)))).
Proof.
  split; [vm_compute; reflexivity|].
  split; [vm_compute; reflexivity|].
  split; [vm_compute; reflexivity|].
  split; [vm_compute; reflexivity|].
  intros to_dt to_num csv.
  destruct (load_county_data_cases to_dt to_num csv) as [-> | (df & ->)];
    [constructor | apply map_fips_rows].
Qed.

(** Counterexample to C9 as stated: after stripping, "St.Tammany " does
    not resolve to the code of "St. Tammany". *)
Lemma st_tammany_no_period_unmapped :
  dict_get (strip "St.Tammany ") LA_PARISH_FIPS <> dict_get "St. Tammany" LA_PARISH_FIPS.
Proof. vm_compute. discriminate. Qed.

(* ------------------------------------------------------------------ *)
(** ** Dates that fail to parse *)




(* ------------------------------------------------------------------ *)
(** ** The county view needs the "Date" branch *)

Lemma county_view_start_dates (df : frame) (b : option (Z * Z)) :
  county_view_start df = CountyDates b -> has_col df "Date" = true.
Proof.
  unfold county_view_start.
  repeat match goal with
         | |- context [if ?c then _ else _] => destruct c eqn:?
         end; try discriminate.
  intros _. apply negb_false_iff. assumption.
Qed.

Lemma county_view_start_no_date (df : frame) :
  is_empty df = false -> has_col df "Date" = false -> county_view_start df = CountyCrash.
Proof.
  intros He Hd. unfold county_view_start. rewrite He, Hd. cbn [negb].
  destruct (negb (has_col df "Parish")); [reflexivity|].
  destruct (negb (forallb _ _)); reflexivity.
Qed.

Lemma load_has_date (to_dt : cell -> option Z) (to_num : cell -> option Q)
      (csv : csv_outcome) :
  has_col (fst (load_county_data to_dt to_num csv)) "Date" = true ->
  exists raw, csv = CsvOk raw /\ has_col (strip_columns raw) "Date" = true.
Proof.
  unfold load_county_data. destruct csv as [raw|e]; [|discriminate].
  cbv zeta.
  destruct (negb (has_col (strip_columns raw) "Parish")); [discriminate|].
  rewrite has_col_rename by discriminate. rewrite has_col_set_col.
  destruct (has_col (strip_columns raw) "Date") eqn:HD; [intros _; eauto|].
  change (String.eqb "Date" "Parish") with false. cbn [orb].
  destruct (has_col _ "year"); cbn [fst]; [|discriminate].
  rewrite has_col_map_fips, has_col_set_col.
  rewrite has_col_rename by discriminate. rewrite has_col_set_col, HD.
  discriminate.
Qed.

(** C10. In economics_dashboard_3cols.py the county view reads
    [county_df["Date"]] unconditionally once [load_county_data] returned a
    non-empty frame: it reaches the date inputs only when the loaded file
    went through the "Date" branch (it has a "Date" column after
    stripping), and a non-empty dataset from the "year" fallback branch
    (a "year" column and no "Date" column) always ends in an uncaught
    exception. *)
Theorem county_view_needs_date (to_dt : cell -> option Z) (to_num : cell -> option Q)
        (csv : csv_outcome) :
  (forall b, county_view_start (fst (load_county_data to_dt to_num csv)) = CountyDates b ->
             exists raw, csv = CsvOk raw /\ has_col (strip_columns raw) "Date" = true)
  /\ (forall raw, csv = CsvOk raw ->
        has_col (strip_columns raw) "Date" = false ->
        has_col (strip_columns raw) "year" = true ->
        is_empty (fst (load_county_data to_dt to_num csv)) = false ->
        county_view_start (fst (load_county_data to_dt to_num csv)) = CountyCrash).
Proof.
  split.
  - intros b Hb. apply (load_has_date to_dt to_num). eapply county_view_start_dates. exact Hb.
  - intros raw -> HD _ He. apply county_view_start_no_date; [exact He|].
    destruct (has_col (fst (load_county_data to_dt to_num (CsvOk raw))) "Date") eqn:H;
      [|reflexivity].
    apply load_has_date in H as (raw' & Heq & HD'). inversion Heq; subst. congruence.
Qed.

Example year_only_view_crashes :
  is_empty (fst (load_county_data toy_to_datetime toy_to_numeric (CsvOk year_only_file))) = false
  /\ county_view_start (fst (load_county_data toy_to_datetime toy_to_numeric
                                              (CsvOk year_only_file))) = CountyCrash.
Proof. split; vm_compute; reflexivity. Qed.

Example date_file_view_dates :
  county_view_start (fst (load_county_data toy_to_datetime toy_to_numeric (CsvOk date_file)))
  = CountyDates (Some (20200101%Z, 20200101%Z)).
Proof. vm_compute. reflexivity. Qed.

(* ================================================================== *)
(** ** Further properties of the dashboards *)

Lemma existsb_eqb_In (x : string) (l : list string) :
  existsb (String.eqb x) l = true <-> In x l.
Proof.
  rewrite existsb_exists. split.
  - intros (y & Hy & E). apply String.eqb_eq in E. subst. exact Hy.
  - intros H. exists x. split; [exact H | apply String.eqb_refl].
Qed.

Lemma dict_get_In_keys (s : string) (d : list (string * string)) :
  In s (map fst d) -> dict_get s d <> None.
Proof.
  induction d as [|[k v] d IH]; simpl; [tauto|].
  intros [<-|H]; [rewrite String.eqb_refl; discriminate|].
  destruct (String.eqb s k); [discriminate | auto].
Qed.

Lemma dict_get_In (s v : string) (d : list (string * string)) :
  dict_get s d = Some v -> In (s, v) d.
Proof.
  induction d as [|[k w] d IH]; simpl; [discriminate|].
  destruct (String.eqb_spec s k) as [->|_].
  - intros [= ->]. left. reflexivity.
  - intros H. right. exact (IH H).
Qed.

Lemma map_option_Some_Forall {A B} (f : A -> option B) (l : list A) :
  Forall (fun x => f x <> None) l -> exists l', map_option f l = Some l'.
Proof.
  induction 1 as [|x l Hx _ [l' IH]]; [exists []; reflexivity|].
  simpl. destruct (f x) as [y|]; [|congruence]. rewrite IH. eexists; reflexivity.
Qed.

Lemma map_option_None_In {A B} (f : A -> option B) (l : list A) (x : A) :
  In x l -> f x = None -> map_option f l = None.
Proof.
  induction l as [|y l IH]; simpl; [tauto|].
  intros [->|H] Hx.
  - rewrite Hx. reflexivity.
  - rewrite (IH H Hx). destruct (f y); reflexivity.
Qed.

Lemma map_option_In {A B} (f : A -> option B) (l : list A) (l' : list B) (y : B) :
  map_option f l = Some l' -> (In y l' <-> exists x, In x l /\ f x = Some y).
Proof.
  revert l'. induction l as [|x l IH]; simpl; intros l' H.
  - injection H as <-. simpl. split; [tauto | intros (x & [] & _)].
  - destruct (f x) as [z|] eqn:Hx; [|discriminate].
    destruct (map_option f l) as [zs|]; [|discriminate].
    injection H as <-. simpl. rewrite (IH zs eq_refl). split.
    + intros [<-|(x' & Hx' & E)].
      * exists x. split; [left; reflexivity | exact Hx].
      * exists x'. split; [right; exact Hx' | exact E].
    + intros (x' & [<-|Hx'] & E).
      * left. congruence.
      * right. exists x'. split; assumption.
Qed.

(* ------------------------------------------------------------------ *)
(** *** State selection and the state chart *)

Lemma selected_states_keys (opts : list string) :
  Forall (fun o => In o state_options) opts ->
  Forall (fun s => dict_get s STATE_SERIES_IDS <> None) (states_selected_of opts).
Proof.
  intros Hopts. unfold states_selected_of.
  destruct (existsb (String.eqb "Select All States") opts) eqn:Hall.
  - apply Forall_forall. intros s Hs. apply dict_get_In_keys. exact Hs.
  - apply Forall_forall. intros o Ho.
    rewrite Forall_forall in Hopts. destruct (Hopts o Ho) as [<-|Ho'].
    + apply existsb_eqb_In in Ho. congruence.
    + apply dict_get_In_keys. exact Ho'.
Qed.

(** X1. In economics_dashboard_3cols.py, whatever options are chosen
    in the state multiselect (including "Select All States"), the
    date-range computation and the merge loop never raise a KeyError on
    [STATE_SERIES_IDS[state]]. *)
Theorem select_states_no_key_error (get : string -> gresult)
  (us_rows : list (Z * option Q)) (opts : list string)
  (Hopts : Forall (fun o => In o state_options) opts) :
  common_range_v3 get (states_selected_of opts) <> None
  /\ exists t, build_comparison (GFrame us_rows) get (states_selected_of opts) = Some t.
Proof.
  pose proof (selected_states_keys opts Hopts) as Hkeys. split.
  - unfold common_range_v3.
    destruct (map_option_Some_Forall _ _ Hkeys) as [sids ->]. cbv zeta.
    match goal with |- match ?x with _ => _ end <> None => destruct x end;
      discriminate.
  - destruct (merge_states_cols get _ Hkeys
                {| tcols := ["United States"];
                   trows := map (fun p => (fst p, [snd p])) us_rows |})
      as (t & Ht & _).
    exists t. exact Ht.
Qed.

Lemma select_states_no_key_error_witness :
  Forall (fun o => In o state_options) ["Select All States"; "Texas"]
  /\ (common_range_v3 (fun _ => GEmpty) (states_selected_of ["Select All States"; "Texas"]) <> None
      /\ exists t, build_comparison (GFrame sample_us_rows) (fun _ => GEmpty)
                     (states_selected_of ["Select All States"; "Texas"]) = Some t).
Proof.
  assert (H : Forall (fun o => In o state_options) ["Select All States"; "Texas"]).
  { apply Forall_forall. intros o Ho. apply existsb_eqb_In.
    destruct Ho as [<-|[<-|[]]]; vm_compute; reflexivity. }
  split; [exact H|].
  exact (select_states_no_key_error (fun _ => GEmpty) sample_us_rows _ H).
Defined.

(** X2. In economics_dashboard.py, a selected state whose fetch failed
    ([get_series] returned [pd.DataFrame()]) makes the common date
    range raise: [get_series(..)["Date"]] has no "Date" column. *)
Theorem failed_fetch_breaks_common_range (us : gresult) (get : string -> gresult)
  (states_selected : list string) (s sid : string)
  (Hin : In s states_selected) (Hsid : dict_get s STATE_SERIES_IDS = Some sid)
  (Hfail : get sid = GEmpty) :
  common_range_v1 us get states_selected = None.
Proof.
  unfold common_range_v1.
  erewrite map_option_None_In; [| exact Hin | cbv beta; rewrite Hsid, Hfail; reflexivity].
  destruct (date_column us); reflexivity.
Qed.

Lemma failed_fetch_breaks_common_range_witness :
  In "Louisiana" ["Louisiana"; "Texas"]
  /\ dict_get "Louisiana" STATE_SERIES_IDS = Some "LAUR"
  /\ (fun _ : string => GEmpty) "LAUR" = GEmpty
  /\ common_range_v1 (GFrame sample_us_rows) (fun _ => GEmpty) ["Louisiana"; "Texas"] = None.
Proof.
  assert (H1 : In "Louisiana" ["Louisiana"; "Texas"]) by (left; reflexivity).
  assert (H2 : dict_get "Louisiana" STATE_SERIES_IDS = Some "LAUR") by (vm_compute; reflexivity).
  assert (H3 : (fun _ : string => GEmpty) "LAUR" = GEmpty) by reflexivity.
  split; [exact H1|]. split; [exact H2|]. split; [exact H3|].
  exact (failed_fetch_breaks_common_range (GFrame sample_us_rows) (fun _ => GEmpty)
           _ _ _ H1 H2 H3).
Defined.

Lemma state_traces_None (t : table) (l : list string) :
  state_traces t l = None <-> exists s, In s l /\ existsb (String.eqb s) (tcols t) = false.
Proof.
  induction l as [|s l IH]; cbn [state_traces].
  - split; [discriminate | intros (x & [] & _)].
  - destruct (existsb (String.eqb s) (tcols t)) eqn:Hs.
    + split.
      * intros H. destruct (state_traces t l) eqn:E; [discriminate|].
        destruct (proj1 IH eq_refl) as (x & Hx & Hx').
        exists x. split; [right; exact Hx | exact Hx'].
      * intros (x & [<-|Hx] & Hx'); [congruence|].
        rewrite (proj2 IH (ex_intro _ x (conj Hx Hx'))). reflexivity.
    + split; [intros _; exists s; split; [left; reflexivity | exact Hs] | reflexivity].
Qed.

(** X11. Both files: for states of the catalog, the state lines of the
    chart ([comparison_df[state]] for each selected state) raise a
    KeyError exactly when some selected state's [get_series] frame is
    empty, since such a state gets no column. *)
Theorem chart_fails_iff_empty_state (us_rows : list (Z * option Q))
  (get : string -> gresult) (states_selected : list string)
  (Hkeys : Forall (fun s => dict_get s STATE_SERIES_IDS <> None) states_selected) :
  exists t, build_comparison (GFrame us_rows) get states_selected = Some t
    /\ (state_traces t states_selected = None
        <-> exists s, In s states_selected /\ has_data get s = false).
Proof.
  destruct (merge_states_cols get states_selected Hkeys
              {| tcols := ["United States"];
                 trows := map (fun p => (fst p, [snd p])) us_rows |})
    as (t & Ht & Hcols).
  exists t. split; [exact Ht|].
  rewrite state_traces_None, Hcols. cbn [tcols app].
  split; intros (s & Hs & H); exists s; split; try exact Hs.
  - destruct (has_data get s) eqn:Hd; [|reflexivity]. exfalso.
    cbn [existsb] in H. apply orb_false_iff in H as [_ H].
    assert (In s (filter (has_data get) states_selected)) as Hf
      by (apply filter_In; split; assumption).
    apply existsb_eqb_In in Hf. congruence.
  - cbn [existsb].
    assert (String.eqb s "United States" = false) as ->.
    { destruct (String.eqb_spec s "United States") as [->|]; [|reflexivity].
      rewrite Forall_forall in Hkeys. exfalso. apply (Hkeys _ Hs).
      vm_compute. reflexivity. }
    destruct (existsb (String.eqb s) (filter (has_data get) states_selected)) eqn:E;
      [|reflexivity].
    apply existsb_eqb_In, filter_In in E as [_ E]. congruence.
Qed.

Lemma chart_fails_iff_empty_state_witness :
  Forall (fun s => dict_get s STATE_SERIES_IDS <> None) ["Louisiana"; "Texas"]
  /\ exists t, build_comparison (GFrame sample_us_rows) (fun _ => GEmpty) ["Louisiana"; "Texas"] = Some t
    /\ (state_traces t ["Louisiana"; "Texas"] = None
        <-> exists s, In s ["Louisiana"; "Texas"] /\ has_data (fun _ => GEmpty) s = false).
Proof.
  assert (H : Forall (fun s => dict_get s STATE_SERIES_IDS <> None) ["Louisiana"; "Texas"]).
  { repeat constructor; vm_compute; discriminate. }
  split; [exact H|].
  exact (chart_fails_iff_empty_state sample_us_rows (fun _ => GEmpty) _ H).
Defined.

(* ------------------------------------------------------------------ *)
(** *** Latest values and the state map (economics_dashboard.py) *)

Lemma fold_max_In (l : list Z) (a : Z) : In (fold_left Z.max l a) (a :: l).
Proof.
  revert a. induction l as [|x l IH]; intros a; simpl; [left; reflexivity|].
  destruct (IH (Z.max a x)) as [H|H]; [|right; right; exact H].
  rewrite <- H. destruct (Z.max_dec a x) as [E|E]; rewrite E;
    [left; reflexivity | right; left; reflexivity].
Qed.

Lemma latest_date_row (t : table) :
  trows t <> [] ->
  exists ld r, latest_date t = Some ld /\ In r (trows t) /\ fst r = ld.
Proof.
  unfold latest_date. destruct (trows t) as [|r0 rest]; [congruence|]. intros _.
  destruct (fold_max_In (map fst rest) (fst r0)) as [H|H].
  - exists (fst r0), r0. rewrite <- H. split; [reflexivity | split; [left|]; reflexivity].
  - apply in_map_iff in H as (r & Hr & Hin). exists (fst r), r. rewrite Hr.
    split; [reflexivity | split; [right; exact Hin | reflexivity]].
Qed.

(** X3. economics_dashboard.py, lines 126-137: on a non-empty table the
    latest values list has one entry per selected state that has a
    column, in selection order; a state without a column is skipped by
    the bare [except]. *)
Theorem latest_values_states (t : table) (states_selected : list string)
  (Hne : trows t <> []) :
  map fst (latest_values t states_selected)
  = filter (fun s => existsb (String.eqb s) (tcols t)) states_selected.
Proof.
  destruct (latest_date_row t Hne) as (ld & r & Hld & Hr & Hfst).
  induction states_selected as [|s rest IH]; [reflexivity|].
  cbn [latest_values filter].
  destruct (index_of s (tcols t)) as [i|] eqn:Hi.
  - assert (existsb (String.eqb s) (tcols t) = true) as ->.
    { destruct (existsb (String.eqb s) (tcols t)) eqn:E; [reflexivity|].
      apply index_of_has_col in E. congruence. }
    rewrite Hld.
    destruct (filter (fun r => Z.eqb (fst r) ld) (trows t)) as [|r' rs] eqn:Hf.
    + exfalso.
      assert (In r (filter (fun r => Z.eqb (fst r) ld) (trows t))) as Hin
        by (apply filter_In; split; [exact Hr | apply Z.eqb_eq; exact Hfst]).
      rewrite Hf in Hin. exact Hin.
    + cbn [map fst]. rewrite IH. reflexivity.
  - apply index_of_has_col in Hi. rewrite Hi. exact IH.
Qed.

Lemma latest_values_states_witness :
  latest_table.(trows) <> []
  /\ map fst (latest_values latest_table ["Louisiana"; "Ohio"; "Texas"])
     = filter (fun s => existsb (String.eqb s) (tcols latest_table)) ["Louisiana"; "Ohio"; "Texas"].
Proof.
  assert (H : latest_table.(trows) <> []) by discriminate.
  split; [exact H | exact (latest_values_states latest_table _ H)].
Defined.

Lemma latest_values_no_rows (t : table) (l : list string) :
  trows t = [] -> latest_values t l = [].
Proof.
  intros H. assert (latest_date t = None) as Hd by (unfold latest_date; rewrite H; reflexivity).
  induction l as [|s l IH]; cbn [latest_values]; [reflexivity|].
  destruct (index_of s (tcols t)); [rewrite Hd|]; exact IH.
Qed.

(** X4. economics_dashboard.py: the start and end date inputs are not
    ordered against each other; with a start after the end the mask
    keeps no row, no state gets a latest value, and building the map
    frame raises ([map_df["State"]] on an empty frame). *)
Theorem inverted_window_breaks_map (t : table) (states_selected : list string)
  (start end_ : Z) (Hinv : (end_ < start)%Z) :
  latest_values (apply_window (Some (start, end_)) t) states_selected = []
  /\ map_rows (latest_values (apply_window (Some (start, end_)) t) states_selected) = None.
Proof.
  assert (Hempty : trows (apply_window (Some (start, end_)) t) = []).
  { cbn [apply_window trows].
    induction (trows t) as [|r rs IH]; [reflexivity|]. cbn [filter].
    unfold in_window.
    destruct (Z.leb_spec start (fst r)), (Z.leb_spec (fst r) end_);
      cbn [andb]; try lia; exact IH. }
  rewrite (latest_values_no_rows _ _ Hempty). split; reflexivity.
Qed.

Lemma inverted_window_breaks_map_witness :
  (20200101 < 20210101)%Z
  /\ latest_values (apply_window (Some (20210101%Z, 20200101%Z)) latest_table) ["Louisiana"] = []
  /\ map_rows (latest_values (apply_window (Some (20210101%Z, 20200101%Z)) latest_table)
                             ["Louisiana"]) = None.
Proof.
  assert (H : (20200101 < 20210101)%Z) by lia.
  split; [exact H | exact (inverted_window_breaks_map latest_table _ _ _ H)].
Defined.

Lemma state_code_of_series (s sid : string) :
  dict_get s STATE_SERIES_IDS = Some sid ->
  exists code, dict_get s state_abbr = Some code /\ sid = (code ++ "UR")%string.
Proof.
  intros H. apply dict_get_In in H. unfold STATE_SERIES_IDS in H. cbn [In] in H.
  repeat (destruct H as [H|H];
          [injection H as <- <-; eexists; split; reflexivity|]).
  destruct H.
Qed.

(** X5. economics_dashboard.py, lines 140-156: for a non-empty list of
    latest values of catalog states, the map frame keeps each (State,
    Rate) pair and gives every state a USPS code; the state's FRED
    series id is that code followed by "UR". *)
Theorem map_rows_state_codes (latest : list (string * option Q))
  (Hne : latest <> [])
  (Hkeys : Forall (fun e => dict_get (fst e) STATE_SERIES_IDS <> None) latest) :
  exists rows, map_rows latest = Some rows
    /\ map fst rows = latest
    /\ Forall (fun row => exists code, snd row = Some code
                  /\ dict_get (fst (fst row)) STATE_SERIES_IDS = Some (code ++ "UR")%string)
              rows.
Proof.
  exists (map (fun e => (fst e, snd e, dict_get (fst e) state_abbr)) latest).
  split; [destruct latest; [congruence | reflexivity]|]. split.
  - rewrite map_map. cbn [fst]. rewrite <- (map_id latest) at 2.
    apply map_ext. intros [a b]. reflexivity.
  - apply Forall_map. eapply Forall_impl; [|exact Hkeys].
    intros e He. cbv beta. cbn [fst snd].
    destruct (dict_get (fst e) STATE_SERIES_IDS) as [sid|] eqn:Hs; [|congruence].
    destruct (state_code_of_series _ _ Hs) as (code & Hc & ->).
    exists code. split; [exact Hc | reflexivity].
Qed.

Lemma map_rows_state_codes_witness :
  [("Louisiana", Some (41 # 10)); ("Texas", None)] <> []
  /\ Forall (fun e => dict_get (fst e) STATE_SERIES_IDS <> None)
            [("Louisiana", Some (41 # 10)); ("Texas", None)]
  /\ exists rows, map_rows [("Louisiana", Some (41 # 10)); ("Texas", None)] = Some rows
    /\ map fst rows = [("Louisiana", Some (41 # 10)); ("Texas", None)]
    /\ Forall (fun row => exists code, snd row = Some code
                  /\ dict_get (fst (fst row)) STATE_SERIES_IDS = Some (code ++ "UR")%string)
              rows.
Proof.
  assert (H1 : [("Louisiana", Some (41 # 10)); ("Texas", None)] <> []) by discriminate.
  assert (H2 : Forall (fun e => dict_get (fst e) STATE_SERIES_IDS <> None)
                      [("Louisiana", Some (41 # 10)); ("Texas", None)])
    by (repeat constructor; vm_compute; discriminate).
  split; [exact H1|]. split; [exact H2|].
  exact (map_rows_state_codes _ H1 H2).
Defined.

(* ------------------------------------------------------------------ *)
(** *** The parish menu and the county filters *)

Lemma insert_sorted_perm (x : string) (l : list string) :
  Permutation (insert_sorted x l) (x :: l).
Proof.
  induction l as [|y l IH]; simpl; [reflexivity|].
  destruct (String.leb x y); [reflexivity|].
  eapply perm_trans; [apply perm_skip; exact IH | apply perm_swap].
Qed.

Lemma sorted_perm (l : list string) : Permutation (sorted l) l.
Proof.
  induction l as [|x l IH]; simpl; [reflexivity|].
  eapply perm_trans; [apply insert_sorted_perm | apply perm_skip; exact IH].
Qed.

Lemma insert_sorted_Sorted (x : string) (l : list string) :
  Sorted (fun a b => String.leb a b = true) l ->
  Sorted (fun a b => String.leb a b = true) (insert_sorted x l).
Proof.
  induction 1 as [|y l Hl IH Hy]; simpl.
  - repeat constructor.
  - destruct (String.leb x y) eqn:Hxy.
    + constructor; [constructor; assumption | constructor; exact Hxy].
    + assert (String.leb y x = true) as Hyx
        by (destruct (String.leb_total x y); congruence).
      constructor; [exact IH|].
      destruct l as [|z l]; simpl; [constructor; exact Hyx|].
      destruct (String.leb x z);
        [constructor; exact Hyx | constructor; inversion Hy; assumption].
Qed.

Lemma sorted_Sorted (l : list string) :
  Sorted (fun a b => String.leb a b = true) (sorted l).
Proof.
  induction l as [|x l IH]; simpl; [constructor | apply insert_sorted_Sorted; exact IH].
Qed.

Lemma unique_In (x : string) (l : list string) : In x (unique l) <-> In x l.
Proof.
  induction l as [|y l IH]; simpl; [tauto|].
  rewrite filter_In, IH.
  destruct (String.eqb_spec y x); cbn [negb]; intuition congruence.
Qed.

Lemma unique_NoDup (l : list string) : NoDup (unique l).
Proof.
  induction l as [|y l IH]; simpl; constructor.
  - rewrite filter_In, String.eqb_refl. intros [_ H]. discriminate.
  - apply NoDup_filter. exact IH.
Qed.

Lemma load_rows_parish (to_dt : cell -> option Z) (to_num : cell -> option Q)
      (csv : csv_outcome) :
  Forall (fun r => exists s code,
              cell_at (fst (load_county_data to_dt to_num csv)) "Parish" r = CStr s
              /\ dict_get s LA_PARISH_FIPS = Some code
              /\ cell_at (fst (load_county_data to_dt to_num csv)) "fips" r = CStr code)
         (frows (fst (load_county_data to_dt to_num csv))).
Proof.
  destruct (load_county_data_cases to_dt to_num csv) as [-> | (df & ->)];
    [constructor | apply map_fips_rows].
Qed.

Lemma load_nonempty_parish (to_dt : cell -> option Z) (to_num : cell -> option Q)
      (csv : csv_outcome) :
  is_empty (fst (load_county_data to_dt to_num csv)) = false ->
  has_col (fst (load_county_data to_dt to_num csv)) "Parish" = true.
Proof.
  unfold load_county_data. destruct csv as [raw|e];
    [|cbn [fst]; intros H; vm_compute in H; discriminate H].
  cbv zeta.
  repeat match goal with
         | |- context [if ?b then _ else _] => destruct b
         end; cbn [fst]; intros H;
    try (match type of H with
         | is_empty empty_frame = false => vm_compute in H; discriminate H
         end);
    repeat (rewrite has_col_map_fips || rewrite has_col_set_col
            || rewrite has_col_rename by discriminate);
    rewrite String.eqb_refl, !orb_true_r; reflexivity.
Qed.

(** X6. economics_dashboard_3cols.py, lines 337 and 351: on a frame
    [load_county_data] returns that passes the [county_df.empty] guard of
    line 337, [sorted(county_df["Parish"].unique())] does not raise and
    lists each parish of the frame exactly once, in ascending order, and
    every listed parish is a key of [LA_PARISH_FIPS]. *)
Theorem parish_menu (to_dt : cell -> option Z) (to_num : cell -> option Q)
        (csv : csv_outcome)
        (Hne : is_empty (fst (load_county_data to_dt to_num csv)) = false) :
  exists parishes,
    parish_names (fst (load_county_data to_dt to_num csv)) = Some parishes
    /\ Sorted (fun a b => String.leb a b = true) parishes
    /\ NoDup parishes
    /\ (forall p, In p parishes
                  <-> exists r, In r (frows (fst (load_county_data to_dt to_num csv)))
                                /\ cell_at (fst (load_county_data to_dt to_num csv)) "Parish" r
                                   = CStr p)
    /\ Forall (fun p => dict_get p LA_PARISH_FIPS <> None) parishes.
Proof.
  pose proof (load_rows_parish to_dt to_num csv) as Hrows.
  pose proof (load_nonempty_parish to_dt to_num csv Hne) as HPc.
  set (df := fst (load_county_data to_dt to_num csv)) in *.
  unfold parish_names. rewrite HPc. cbn [negb].
  destruct (map_option_Some_Forall
              (fun r => match cell_at df "Parish" r with CStr s => Some s | _ => None end)
              (frows df)) as [names Hnames].
  { eapply Forall_impl; [|exact Hrows]. intros r (s & code & Hs & _).
    cbv beta. rewrite Hs. discriminate. }
  rewrite Hnames. cbn [option_map].
  exists (sorted (unique names)).
  assert (Hin : forall p, In p (sorted (unique names))
                          <-> exists r, In r (frows df) /\ cell_at df "Parish" r = CStr p).
  { intros p. split.
    - intros H. apply (Permutation_in p (sorted_perm (unique names))) in H.
      rewrite unique_In in H.
      apply (map_option_In _ _ _ p Hnames) in H as (r & Hr & E).
      exists r. split; [exact Hr|].
      destruct (cell_at df "Parish" r) as [|s| |]; simpl in E; try discriminate.
      injection E as ->. reflexivity.
    - intros (r & Hr & E).
      apply (Permutation_in p (Permutation_sym (sorted_perm (unique names)))).
      rewrite unique_In.
      apply (map_option_In _ _ _ p Hnames). exists r. split; [exact Hr|].
      rewrite E. reflexivity. }
  split; [reflexivity|]. split; [apply sorted_Sorted|]. split.
  { eapply Permutation_NoDup; [apply Permutation_sym, sorted_perm | apply unique_NoDup]. }
  split; [exact Hin|].
  apply Forall_forall. intros p Hp. apply Hin in Hp as (r & Hr & E).
  rewrite Forall_forall in Hrows. destruct (Hrows r Hr) as (s & code & Hs & Hc & _).
  rewrite E in Hs. injection Hs as <-. congruence.
Qed.

Lemma parish_menu_witness :
  is_empty (fst (load_county_data sample_to_datetime sample_to_numeric
                                  (CsvOk sample_county_file))) = false
  /\ exists parishes,
    parish_names (fst (load_county_data sample_to_datetime sample_to_numeric
                                        (CsvOk sample_county_file))) = Some parishes
    /\ Sorted (fun a b => String.leb a b = true) parishes
    /\ NoDup parishes
    /\ (forall p, In p parishes
                  <-> exists r, In r (frows (fst (load_county_data sample_to_datetime
                                                   sample_to_numeric (CsvOk sample_county_file))))
                                /\ cell_at (fst (load_county_data sample_to_datetime
                                                   sample_to_numeric (CsvOk sample_county_file)))
                                           "Parish" r = CStr p)
    /\ Forall (fun p => dict_get p LA_PARISH_FIPS <> None) parishes.
Proof.
  assert (H : is_empty (fst (load_county_data sample_to_datetime sample_to_numeric
                                              (CsvOk sample_county_file))) = false)
    by (vm_compute; reflexivity).
  split; [exact H|].
  exact (parish_menu sample_to_datetime sample_to_numeric _ H).
Defined.

(* ------------------------------------------------------------------ *)
(** *** The year column *)

Lemma map_fips_cells (df : frame) (r : list cell) :
  In r (frows (map_fips df)) ->
  exists r0, In r0 (frows df)
             /\ forall c, c <> "fips" -> cell_at (map_fips df) c r = cell_at df c r0.
Proof.
  intros Hr. unfold map_fips, dropna_col in *. cbn [frows fcols] in *.
  apply filter_In in Hr as [Hr _]. apply in_map_iff in Hr as (r0 & <- & Hr0).
  exists r0. split; [exact Hr0|]. intros c Hc.
  change (cell_at {| fcols := fcols (set_col df "fips" (fun r => fips_cell (cell_at df "Parish" r)));
                     frows := _ |})
    with (cell_at (set_col df "fips" (fun r => fips_cell (cell_at df "Parish" r)))).
  apply cell_at_set_col_other. exact Hc.
Qed.

Lemma year_from_date (df : frame) (g : list cell -> cell)
      (Hg : forall r, g r = match cell_at df "Date" r with
                            | CDate d => CNum (inject_Z (year_of d))
                            | _ => CNull
                            end) :
  has_col (map_fips (set_col df "year" g)) "year" = true
  /\ Forall (fun r => cell_at (map_fips (set_col df "year" g)) "year" r
                      = match cell_at (map_fips (set_col df "year" g)) "Date" r with
                        | CDate d => CNum (inject_Z (year_of d))
                        | _ => CNull
                        end)
            (frows (map_fips (set_col df "year" g))).
Proof.
  split.
  - rewrite has_col_map_fips, has_col_set_col, String.eqb_refl, orb_true_r. reflexivity.
  - apply Forall_forall. intros r Hr.
    destruct (map_fips_cells _ r Hr) as (r1 & Hr1 & Hc).
    rewrite !Hc by discriminate.
    cbn [set_col frows] in Hr1. apply in_map_iff in Hr1 as (r0 & <- & _).
    rewrite cell_at_set_col_same, cell_at_set_col_other by discriminate.
    apply Hg.
Qed.

Lemma load_year_of_date (to_dt : cell -> option Z) (to_num : cell -> option Q)
      (csv : csv_outcome) :
  has_col (fst (load_county_data to_dt to_num csv)) "Date" = true ->
  has_col (fst (load_county_data to_dt to_num csv)) "year" = true
  /\ Forall (fun r => cell_at (fst (load_county_data to_dt to_num csv)) "year" r
                      = match cell_at (fst (load_county_data to_dt to_num csv)) "Date" r with
                        | CDate d => CNum (inject_Z (year_of d))
                        | _ => CNull
                        end)
            (frows (fst (load_county_data to_dt to_num csv))).
Proof.
  unfold load_county_data. destruct csv as [raw|e]; cbn [fst]; [|discriminate].
  cbv zeta.
  match goal with
  | |- context [if negb (has_col ?f "Parish") then _ else _] =>
      destruct (has_col f "Parish")
  end; cbn [negb fst]; [|discriminate].
  match goal with
  | |- context [if has_col ?f "Date" then _ else _] => destruct (has_col f "Date") eqn:HD
  end.
  - match goal with
    | |- context [if forallb ?p ?l then _ else _] => destruct (forallb p l)
    end; cbn [fst]; [discriminate|].
    intros _. eapply year_from_date. intros r. reflexivity.
  - match goal with
    | |- context [if has_col ?f "year" then _ else _] => destruct (has_col f "year")
    end; cbn [fst]; [|discriminate].
    rewrite has_col_map_fips, has_col_set_col, HD.
    intros H. simpl in H. discriminate H.
Qed.

(** X8. Both files: in every frame [load_county_data] returns with a
    "Date" column, each row's "year" is the year of its Date, and NaN
    when the Date is NaT. *)
Theorem county_year_of_date (to_dt : cell -> option Z) (to_num : cell -> option Q)
  (csv : csv_outcome)
  (HD : has_col (fst (load_county_data to_dt to_num csv)) "Date" = true) :
  Forall (fun r => cell_at (fst (load_county_data to_dt to_num csv)) "year" r
                   = match cell_at (fst (load_county_data to_dt to_num csv)) "Date" r with
                     | CDate d => CNum (inject_Z (year_of d))
                     | _ => CNull
                     end)
         (frows (fst (load_county_data to_dt to_num csv))).
Proof.
  exact (proj2 (load_year_of_date to_dt to_num csv HD)).
Qed.

Lemma county_year_of_date_witness :
  has_col (fst (load_county_data sample_to_datetime sample_to_numeric
                                 (CsvOk sample_county_file))) "Date" = true
  /\ Forall (fun r => cell_at (fst (load_county_data sample_to_datetime sample_to_numeric
                                                     (CsvOk sample_county_file))) "year" r
                   = match cell_at (fst (load_county_data sample_to_datetime sample_to_numeric
                                                          (CsvOk sample_county_file))) "Date" r with
                     | CDate d => CNum (inject_Z (year_of d))
                     | _ => CNull
                     end)
         (frows (fst (load_county_data sample_to_datetime sample_to_numeric
                                       (CsvOk sample_county_file)))).
Proof.
  assert (H : has_col (fst (load_county_data sample_to_datetime sample_to_numeric
                                             (CsvOk sample_county_file))) "Date" = true)
    by (vm_compute; reflexivity).
  split; [exact H | exact (county_year_of_date _ _ _ H)].
Defined.

(** X9. The year filters of the county maps
    ([county_df["year"] == selected_year], economics_dashboard.py line
    325, and with the parish selection, economics_dashboard_3cols.py
    lines 427-430): on a loaded frame with a "Date" column, neither
    raises, and every row they keep has a parsed Date in the selected
    year. *)
Theorem year_filters_parsed (to_dt : cell -> option Z) (to_num : cell -> option Q)
  (csv : csv_outcome) (y : Z) (selected_parishes : list string)
  (HD : has_col (fst (load_county_data to_dt to_num csv)) "Date" = true) :
  (exists f, filtered_county_df (fst (load_county_data to_dt to_num csv)) y = Some f
     /\ Forall (fun r => exists d, cell_at (fst (load_county_data to_dt to_num csv)) "Date" r
                                   = CDate d /\ year_of d = y) (frows f))
  /\ (forall f, filtered_map_df (fst (load_county_data to_dt to_num csv)) y selected_parishes
                = Some f ->
       Forall (fun r => exists d, cell_at (fst (load_county_data to_dt to_num csv)) "Date" r
                                  = CDate d /\ year_of d = y) (frows f)).
Proof.
  destruct (load_year_of_date to_dt to_num csv HD) as [Hy Hrows].
  set (df := fst (load_county_data to_dt to_num csv)) in *.
  rewrite Forall_forall in Hrows.
  assert (Hkey : forall r, In r (frows df) -> year_is (cell_at df "year" r) y = true ->
                           exists d, cell_at df "Date" r = CDate d /\ year_of d = y).
  { intros r Hr Hyr. rewrite (Hrows r Hr) in Hyr.
    destruct (cell_at df "Date" r) as [| | |d]; cbn [year_is] in Hyr; try discriminate.
    exists d. split; [reflexivity|].
    apply inject_Z_injective, Qeq_bool_iff. exact Hyr. }
  split.
  - unfold filtered_county_df. rewrite Hy. cbn [negb].
    eexists. split; [reflexivity|]. cbn [frows].
    apply Forall_forall. intros r Hr. apply filter_In in Hr as [Hr Hyr].
    exact (Hkey r Hr Hyr).
  - intros f. unfold filtered_map_df. rewrite Hy. cbn [andb].
    destruct (has_col df "Parish"); cbn [negb]; [|discriminate].
    intros [= <-]. cbn [frows].
    apply Forall_forall. intros r Hr. apply filter_In in Hr as [Hr Hyr].
    apply andb_true_iff in Hyr as [Hyr _].
    exact (Hkey r Hr Hyr).
Qed.

Lemma year_filters_parsed_witness :
  has_col (fst (load_county_data sample_to_datetime sample_to_numeric
                                 (CsvOk sample_county_file))) "Date" = true
  /\ ((exists f, filtered_county_df (fst (load_county_data sample_to_datetime sample_to_numeric
                                                           (CsvOk sample_county_file))) 2020 = Some f
        /\ Forall (fun r => exists d, cell_at (fst (load_county_data sample_to_datetime
                                                     sample_to_numeric (CsvOk sample_county_file)))
                                              "Date" r = CDate d /\ year_of d = 2020%Z) (frows f))
      /\ (forall f, filtered_map_df (fst (load_county_data sample_to_datetime sample_to_numeric
                                                           (CsvOk sample_county_file))) 2020
                                    ["Tangipahoa"; "St. Tammany"] = Some f ->
          Forall (fun r => exists d, cell_at (fst (load_county_data sample_to_datetime
                                                     sample_to_numeric (CsvOk sample_county_file)))
                                             "Date" r = CDate d /\ year_of d = 2020%Z) (frows f))).
Proof.
  assert (H : has_col (fst (load_county_data sample_to_datetime sample_to_numeric
                                             (CsvOk sample_county_file))) "Date" = true)
    by (vm_compute; reflexivity).
  split; [exact H | exact (year_filters_parsed _ _ _ 2020 _ H)].
Defined.

(* ------------------------------------------------------------------ *)
(** *** The parish GeoJSON *)

Lemma la_features_In {A : Type} (features kept : list (option string * A)) :
  la_features features = Some kept ->
  forall f, In f kept
            <-> In f features /\ exists id, fst f = Some id /\ String.prefix "22" id = true.
Proof.
  revert kept. induction features as [|f0 rest IH]; simpl; intros kept H f.
  - injection H as <-. simpl. tauto.
  - destruct (fst f0) as [id|] eqn:Hid; [|discriminate].
    destruct (la_features rest) as [kept'|]; [|discriminate].
    cbn [option_map] in H. injection H as <-.
    specialize (IH kept' eq_refl f).
    destruct (String.prefix "22" id) eqn:Hp; simpl; rewrite IH; split.
    + intros [<-|[H1 H2]].
      * split; [left; reflexivity | exists id; split; assumption].
      * split; [right; exact H1 | exact H2].
    + intros [[<-|H1] H2]; [left; reflexivity | right; split; assumption].
    + intros [H1 H2]. split; [right; exact H1 | exact H2].
    + intros [[<-|H1] (id' & H2 & H3)]; [congruence|].
      split; [exact H1 | exists id'; split; assumption].
Qed.

(** X10. economics_dashboard_3cols.py, lines 437-439: when every
    feature has an "id", the filtered GeoJSON keeps only features whose
    id starts with "22", and it keeps every feature whose id is the FIPS
    code of a parish of [LA_PARISH_FIPS]. *)
Theorem la_features_keep_parishes {A : Type} (features kept : list (option string * A))
  (Hok : la_features features = Some kept) :
  (forall f, In f kept -> exists id, fst f = Some id /\ String.prefix "22" id = true)
  /\ (forall p code (x : A), dict_get p LA_PARISH_FIPS = Some code ->
        (In (Some code, x) kept <-> In (Some code, x) features)).
Proof.
  split.
  - intros f Hf. apply (la_features_In features kept Hok f) in Hf. exact (proj2 Hf).
  - intros p code x Hp. rewrite (la_features_In features kept Hok).
    assert (String.prefix "22" code = true) as Hc.
    { apply dict_get_In in Hp.
      assert (Hall : forallb (fun e => String.prefix "22" (snd e)) LA_PARISH_FIPS = true)
        by (vm_compute; reflexivity).
      rewrite forallb_forall in Hall. exact (Hall _ Hp). }
    split; [intros [H _]; exact H|].
    intros H. split; [exact H | exists code; split; [reflexivity | exact Hc]].
Qed.

Lemma la_features_keep_parishes_witness :
  la_features sample_features = Some [(Some "22001", 1%Z); (Some "22103", 3%Z)]
  /\ ((forall f, In f [(Some "22001", 1%Z); (Some "22103", 3%Z)] ->
                 exists id, fst f = Some id /\ String.prefix "22" id = true)
      /\ (forall p code (x : Z), dict_get p LA_PARISH_FIPS = Some code ->
            (In (Some code, x) [(Some "22001", 1%Z); (Some "22103", 3%Z)]
             <-> In (Some code, x) sample_features))).
Proof.
  assert (H : la_features sample_features = Some [(Some "22001", 1%Z); (Some "22103", 3%Z)])
    by (vm_compute; reflexivity).
  split; [exact H | exact (la_features_keep_parishes _ _ H)].
Defined.
